(** * Portfolio API (src/main.py): keyword ranking, filters and CRUD helpers

    A shallow embedding of the parts of [src/main.py] that the ranking
    endpoint [ai_query], the project list filter [get_projects], the profile
    read [get_profile] and the CRUD helpers [update_item] / [delete_item]
    consist of.  Python [str] values are modelled as [String.string] over
    7-bit ASCII text: [str.lower] lowers [A-Z], [str.split()] splits on the
    ASCII characters that Python classifies as whitespace. *)

From Stdlib Require Import String Ascii List ZArith Lia Bool.
From Stdlib Require Import Sorting.Permutation Sorting.Sorted.
Import ListNotations.
Open Scope string_scope.

(* ------------------------------------------------------------------ *)
(** ** Python string primitives *)

Module Py.

(** [str.isspace] on ASCII: \t \n \v \f \r, the separators \x1c-\x1f and ' '. *)
Definition is_space (c : ascii) : bool :=
  let n := nat_of_ascii c in
  (((9 <=? n) && (n <=? 13)) || ((28 <=? n) && (n <=? 32)))%nat.

(** [str.lower] on one ASCII character. *)
Definition lower_char (c : ascii) : ascii :=
  let n := nat_of_ascii c in
  if ((65 <=? n) && (n <=? 90))%nat then ascii_of_nat (n + 32) else c.

Fixpoint lower (s : string) : string :=
  match s with
  | EmptyString => EmptyString
  | String c s' => String (lower_char c) (lower s')
  end.

(** [s.startswith(p)] *)
Fixpoint startswith (s p : string) : bool :=
  match p, s with
  | EmptyString, _ => true
  | String c p', String d s' => Ascii.eqb c d && startswith s' p'
  | String _ _, EmptyString => false
  end.

(** [p in s]: substring containment. *)
Fixpoint contains (p s : string) : bool :=
  startswith s p ||
  match s with
  | EmptyString => false
  | String _ s' => contains p s'
  end.

(** [s.split()] with no separator: maximal runs of non-whitespace, in
    order; [cur] is the token read so far. *)
Fixpoint split_aux (s cur : string) : list string :=
  match s with
  | EmptyString => match cur with EmptyString => [] | _ => [cur] end
  | String c s' =>
      if is_space c then
        match cur with
        | EmptyString => split_aux s' EmptyString
        | _ => cur :: split_aux s' EmptyString
        end
      else split_aux s' (cur ++ String c EmptyString)
  end.

Definition split (s : string) : list string := split_aux s EmptyString.

(** [sep.join(xs)] *)
Definition join (sep : string) (xs : list string) : string := String.concat sep xs.

(** [s.lstrip()] and [s.rstrip()]; [s.strip()] is both. *)
Fixpoint lstrip (s : string) : string :=
  match s with
  | EmptyString => EmptyString
  | String c s' => if is_space c then lstrip s' else s
  end.

Fixpoint rstrip (s : string) : string :=
  match s with
  | EmptyString => EmptyString
  | String c s' =>
      match rstrip s' with
      | EmptyString => if is_space c then EmptyString else String c EmptyString
      | r => String c r
      end
  end.

Definition strip (s : string) : string := lstrip (rstrip s).

(** Truthiness of [str] ([if s:]). *)
Definition truthy (s : string) : bool :=
  match s with EmptyString => false | _ => true end.

End Py.

(* ------------------------------------------------------------------ *)
(** ** Records searched by [ai_query] (src/schemas.py)

    Only the fields that [ai_query] reads are kept.  A field that the
    stored document lacks reads as the default of [d.get(k, default)]:
    [""] for text, [[]] for lists. *)

Module Project.
Record t := mk { title : string; description : string;
                 tech_stack : list string; highlights : list string }.
End Project.

Module Certificate.
Record t := mk { title : string; organization : string;
                 skill_category : string; reflection : string }.
End Certificate.

Module JournalEntry.
Record t := mk { title : string; content_markdown : string; tags : list string }.
End JournalEntry.

(* ------------------------------------------------------------------ *)
(** ** The ranking endpoint [ai_query] *)

Module AI.

(** [class AIQuery]: [question: str], [focus: Optional[str]]. *)
Record AIQuery := mkQuery { question : string; focus : option string }.

(** The three collections as [db[...].find()] returns them, in store order.
    The module-level [db] is [None] when no database is configured and a
    pymongo [Database] otherwise: [option DB]. *)
Record DB := mkDB { projects : list Project.t;
                    certificates : list Certificate.t;
                    journal : list JournalEntry.t }.

(** [results: Dict[str, List[Dict]]]: a key is present or absent. *)
Record Results := mkResults { r_projects : option (list Project.t);
                              r_certificates : option (list Certificate.t);
                              r_journal : option (list JournalEntry.t) }.

Record Response := mkResponse { answer : string; results : Results }.

(** The loop of [rank_text]:
    [for token in q.split(): if token and token in text.lower(): score += 1] *)
Fixpoint rank_loop (tokens : list string) (ltext : string) (score : nat) : nat :=
  match tokens with
  | [] => score
  | token :: rest =>
      rank_loop rest ltext
        (if Py.truthy token && Py.contains token ltext then S score else score)
  end.

(** [rank_text(text)], with [q] the lower-cased question. *)
Definition rank_text (q text : string) : nat :=
  rank_loop (Py.split q) (Py.lower text) 0.

(** The search texts built in the three [sorted] keys. *)
Definition project_text (d : Project.t) : string :=
  Py.join " " [Project.title d; Project.description d;
               Py.join " " (Project.tech_stack d); Py.join " " (Project.highlights d)].

Definition certificate_text (d : Certificate.t) : string :=
  Py.join " " [Certificate.title d; Certificate.organization d;
               Certificate.skill_category d; Certificate.reflection d].

Definition journal_text (d : JournalEntry.t) : string :=
  Py.join " " [JournalEntry.title d; JournalEntry.content_markdown d;
               Py.join " " (JournalEntry.tags d)].

(** [sorted(xs, key=key, reverse=True)]: Python's sort is stable, also with
    [reverse=True], so its result is the stable sort by descending key.
    Written as insertion sort: a later element goes after every earlier one
    whose key is not smaller. *)
Fixpoint insert_desc {A} (key : A -> nat) (x : A) (l : list A) : list A :=
  match l with
  | [] => [x]
  | y :: r => if Nat.ltb (key y) (key x) then x :: y :: r else y :: insert_desc key x r
  end.

Definition sorted_desc {A} (key : A -> nat) (l : list A) : list A :=
  fold_left (fun acc x => insert_desc key x acc) l [].

(** [ranked = sorted(...)] followed by [ranked[:5]]. *)
Definition top5 {A} (key : A -> nat) (docs : list A) : list A :=
  firstn 5 (sorted_desc key docs).

Definition focus_in (f : string) (names : list string) : bool :=
  existsb (String.eqb f) names.

(** [bool(db)]: [False] for [None]; a pymongo (4.x) [Database] does not
    implement truth testing, [Database.__bool__] raises [NotImplementedError]
    ([None] here). *)
Definition db_truthy {D} (db : option D) : option bool :=
  match db with
  | None => Some false
  | Some _ => None
  end.

(** [list(db[...].find()) if db else []], [None] when it raises. *)
Definition docs_of {A} (db : option DB) (sel : DB -> list A) : option (list A) :=
  match db_truthy db with
  | Some true => Some (match db with Some d => sel d | None => [] end)
  | Some false => Some []
  | None => None
  end.

(** One [if focus in (...):] block: [Some None] when the block is skipped,
    [Some (Some top)] for [results[kind] = ranked[:5]], [None] when it
    raises. *)
Definition search {A} (db : option DB) (on : bool) (sel : DB -> list A) (key : A -> nat)
    : option (option (list A)) :=
  if on then
    match docs_of db sel with
    | Some docs => Some (Some (top5 key docs))
    | None => None
    end
  else Some None.

(** The summary sentences, each with the trailing text the code appends. *)
Definition project_part (r : option (list Project.t)) : string :=
  match r with
  | Some (top :: _) =>
      "Top project: " ++ Project.title top ++ " — tech: "
        ++ Py.join ", " (Project.tech_stack top) ++ ". "
  | _ => ""
  end.

Definition certificate_part (r : option (list Certificate.t)) : string :=
  match r with
  | Some (topc :: _) =>
      "Recent certificate: " ++ Certificate.title topc ++ " in "
        ++ Certificate.skill_category topc ++ ". "
  | _ => ""
  end.

Definition journal_part (r : option (list JournalEntry.t)) : string :=
  match r with
  | Some (topj :: _) =>
      "Learning focus: " ++ Py.join ", " (firstn 3 (JournalEntry.tags topj)) ++ "."
  | _ => ""
  end.

(** The summary and the returned mapping, from the three [results] entries. *)
Definition respond (rp : option (list Project.t)) (rc : option (list Certificate.t))
    (rj : option (list JournalEntry.t)) : Response :=
  let summary := project_part rp ++ certificate_part rc ++ journal_part rj in
  mkResponse (Py.strip summary) (mkResults rp rc rj).

(** [ai_query(payload)]: the response, or [None] when the request raises
    (HTTP 500).  The three blocks run in order; an exception ends it. *)
Definition ai_query (db : option DB) (payload : AIQuery) : option Response :=
  let q := Py.lower (question payload) in
  let focus := Py.lower (match focus payload with Some f => f | None => "" end) in
  match search db (focus_in focus [""; "project"; "projects"]) projects
               (fun d => rank_text q (project_text d)) with
  | None => None
  | Some rp =>
      match search db (focus_in focus [""; "certificate"; "certificates"]) certificates
                   (fun d => rank_text q (certificate_text d)) with
      | None => None
      | Some rc =>
          match search db (focus_in focus [""; "journal"]) journal
                       (fun d => rank_text q (journal_text d)) with
          | None => None
          | Some rj => Some (respond rp rc rj)
          end
      end
  end.

End AI.

(* ------------------------------------------------------------------ *)
(** ** [GET /projects]: the filter of [get_projects]

    [filt["highlights"] = {"$elemMatch": {"$regex": tag, "$options": "i"}}]
    (likewise [tech] over [tech_stack]).  The store compiles each [$regex]
    pattern when it parses the query and evaluates it; a pattern it cannot
    compile (such as "[") makes the query fail, and [list_items] raises. *)

Module Filter.

(** The store's case-insensitive regular expressions: [rx pattern] is
    [None] when the server rejects [pattern], otherwise the match test of
    the compiled pattern on a subject text. *)
Definition regex := string -> option (string -> bool).

(** A filter entry: field name and pattern of an [$elemMatch]/[$regex]. *)
Definition filter := list (string * string).

Definition build_project_filter (tag tech : option string) : filter :=
  app (match tag with Some t => if Py.truthy t then [("highlights", t)] else [] | None => [] end)
      (match tech with Some t => if Py.truthy t then [("tech_stack", t)] else [] | None => [] end).

Definition project_list_field (name : string) (d : Project.t) : list string :=
  if String.eqb name "highlights" then Project.highlights d
  else if String.eqb name "tech_stack" then Project.tech_stack d
  else [].

(** Parsing the query: every pattern compiled, or [None]. *)
Fixpoint compile (rx : regex) (f : filter) : option (list (string * (string -> bool))) :=
  match f with
  | [] => Some []
  | (name, pat) :: r =>
      match rx pat, compile rx r with
      | Some m, Some cr => Some ((name, m) :: cr)
      | _, _ => None
      end
  end.

(** Store-side evaluation: every entry has an array element matching it. *)
Definition matches_filter (cf : list (string * (string -> bool))) (d : Project.t) : bool :=
  forallb (fun '(name, m) => existsb m (project_list_field name d)) cf.

(** [list_items(Project, filters=filt)], documents in store order; [None]
    when the query fails. *)
Definition get_projects (rx : regex) (store : list Project.t) (tag tech : option string)
    : option (list Project.t) :=
  match compile rx (build_project_filter tag tech) with
  | Some cf => Some (List.filter (matches_filter cf) store)
  | None => None
  end.

(** Case-insensitive substring containment, the test the spec describes. *)
Definition ci_contains (v s : string) : bool := Py.contains (Py.lower v) (Py.lower s).

End Filter.

(* ------------------------------------------------------------------ *)
(** ** Stored documents and the CRUD helpers *)

Module Crud.

(** BSON values a document holds: text, numbers, booleans, null, arrays of
    text, ObjectIds (12 bytes) and datetimes. *)
Inductive value :=
  | VStr (s : string) | VInt (z : Z) | VBool (b : bool) | VNull
  | VStrs (l : list string) | VOid (bytes : list Z) | VTime (t : Z).

Definition value_eq_dec (x y : value) : {x = y} + {x <> y}.
Proof.
  decide equality; auto using string_dec, Z.eq_dec, bool_dec, list_eq_dec.
Defined.

(** A document (and a Python dict): ordered fields with distinct names. *)
Definition doc := list (string * value).

Fixpoint lookup (k : string) (d : doc) : option value :=
  match d with
  | [] => None
  | (k', v) :: r => if String.eqb k k' then Some v else lookup k r
  end.

(** [d[k] = v]: overwrite in place, or append a new field. *)
Fixpoint set_key (k : string) (v : value) (d : doc) : doc :=
  match d with
  | [] => [(k, v)]
  | (k', v') :: r => if String.eqb k k' then (k', v) :: r else (k', v') :: set_key k v r
  end.

(** The outcomes of a failing request: HTTP 400, HTTP 404, and an exception
    raised by the store call (HTTP 500). *)
Inductive error := InvalidIdError | NotFoundError | StoreError.

Inductive result (A : Type) := Ok (a : A) | Err (e : error).
Arguments Ok {A} a.
Arguments Err {A} e.

(** *** [to_oid]: [ObjectId(id_str)] or HTTP 400.

    [bson.ObjectId] accepts a [str] of length 24 for which [bytes.fromhex]
    succeeds; [bytes.fromhex] skips ASCII whitespace between digit pairs. *)
Definition hex_val (c : ascii) : option Z :=
  let n := nat_of_ascii c in
  if ((48 <=? n) && (n <=? 57))%nat then Some (Z.of_nat (n - 48))
  else if ((97 <=? n) && (n <=? 102))%nat then Some (Z.of_nat (n - 87))
  else if ((65 <=? n) && (n <=? 70))%nat then Some (Z.of_nat (n - 55))
  else None.

Definition ascii_space (c : ascii) : bool :=
  let n := nat_of_ascii c in (((9 <=? n) && (n <=? 13)) || (n =? 32))%nat.

Fixpoint fromhex (s : string) : option (list Z) :=
  match s with
  | EmptyString => Some []
  | String c r =>
      if ascii_space c then fromhex r else
      match r with
      | String c2 r' =>
          match hex_val c, hex_val c2, fromhex r' with
          | Some h, Some l, Some bs => Some ((16 * h + l)%Z :: bs)
          | _, _, _ => None
          end
      | EmptyString => None
      end
  end.

Definition to_oid (id_str : string) : result (list Z) :=
  if (String.length id_str =? 24)%nat then
    match fromhex id_str with Some b => Ok b | None => Err InvalidIdError end
  else Err InvalidIdError.

(** *** The store's single-document operations on one collection, kept in
    store order. *)
Definition doc_id (d : doc) : option value := lookup "_id" d.

Definition matches_oid (oid : list Z) (d : doc) : bool :=
  match doc_id d with
  | Some v => if value_eq_dec v (VOid oid) then true else false
  | None => false
  end.

Definition find_one (col : list doc) (oid : list Z) : option doc :=
  find (matches_oid oid) col.

(** *** [update_one(filter, {"$set": upd})]

    pymongo encodes the update (BSON): a field name holding a NUL character
    is refused ([InvalidDocument]), an [int] outside 64 bits too
    ([OverflowError]), and a [datetime] is stored to the millisecond.  The
    server then parses the [$set] paths, before it looks for a document: a
    path is split at ".", and an empty component is an error, as are two
    paths one of which extends the other ("a" and "a.b").  Then it updates
    the first matching document: a plain name (one component, not starting
    with "$") sets that top-level field; [_id] is immutable, so setting it
    to another value fails; a dotted path whose first component holds a
    value that is not an array fails (there is no field to create inside
    it).  What the store does with the remaining paths (into an array or a
    missing field, or with components starting with "$") is not modelled:
    it is the [store_paths] argument, which never changes [_id].  The
    fields are applied in the order of the update (MongoDB 5.0 and later
    apply them sorted by name, which only changes where a new field is
    placed; nothing below depends on the position of a field). *)

Record store_paths := mkPaths {
  dollar_ok : string -> bool;
  path_set : doc -> string -> value -> option doc;
  path_set_id : forall d k v d', path_set d k v = Some d' -> lookup "_id" d' = lookup "_id" d
}.

(** [k.split(".")] *)
Fixpoint path_aux (s cur : string) : list string :=
  match s with
  | EmptyString => [cur]
  | String c s' =>
      if Ascii.eqb c "." then cur :: path_aux s' EmptyString
      else path_aux s' (cur ++ String c EmptyString)
  end.

Definition path (k : string) : list string := path_aux k EmptyString.

Definition nul : string := String (ascii_of_nat 0) EmptyString.

(** The BSON form of a value: [None] when it cannot be encoded. *)
Definition bson_value (v : value) : option value :=
  match v with
  | VInt z => if (Z.leb (- 2 ^ 63) z && Z.ltb z (2 ^ 63))%Z then Some v else None
  | VTime t => Some (VTime (t / 1000 * 1000)%Z)
  | _ => Some v
  end.

Fixpoint encode_doc (d : doc) : option doc :=
  match d with
  | [] => Some []
  | (k, v) :: r =>
      if Py.contains nul k then None
      else match bson_value v, encode_doc r with
           | Some v', Some r' => Some ((k, v') :: r')
           | _, _ => None
           end
  end.

Fixpoint is_prefix (p q : list string) : bool :=
  match p, q with
  | [], _ => true
  | a :: p', b :: q' => String.eqb a b && is_prefix p' q'
  | _ :: _, [] => false
  end.

Fixpoint no_conflict (ps : list (list string)) : bool :=
  match ps with
  | [] => true
  | p :: r => forallb (fun q => negb (is_prefix p q || is_prefix q p)) r && no_conflict r
  end.

Definition path_ok (sp : store_paths) (k : string) : bool :=
  forallb Py.truthy (path k)
  && (if existsb (fun c => Py.startswith c "$") (path k) then dollar_ok sp k else true).

(** The server's parse of the [$set] document. *)
Definition update_parses (sp : store_paths) (upd : doc) : bool :=
  forallb (fun kv => path_ok sp (fst kv)) upd && no_conflict (map (fun kv => path (fst kv)) upd).

(** A value with no field inside it (anything but an array). *)
Definition scalar (v : value) : bool :=
  match v with VStrs _ => false | _ => true end.

(** One field of [$set]. *)
Definition set_field (sp : store_paths) (d : doc) (kv : string * value) : option doc :=
  let '(k, v) := kv in
  match path k with
  | [_] =>
      if Py.startswith k "$" then path_set sp d k v
      else if String.eqb k "_id" then
        match doc_id d with
        | Some v0 => if value_eq_dec v v0 then Some d else None
        | None => None
        end
      else Some (set_key k v d)
  | top :: _ =>
      match lookup top d with
      | Some w => if scalar w then None else path_set sp d k v
      | None => path_set sp d k v
      end
  | [] => None
  end.

Fixpoint apply_set (sp : store_paths) (d : doc) (upd : doc) : option doc :=
  match upd with
  | [] => Some d
  | kv :: r => match set_field sp d kv with Some d' => apply_set sp d' r | None => None end
  end.

(** The update of the first matching document: the new collection and
    [matched_count]. *)
Fixpoint update_first (sp : store_paths) (col : list doc) (oid : list Z) (upd : doc)
    : result (list doc * nat) :=
  match col with
  | [] => Ok ([], 0)
  | d :: r =>
      if matches_oid oid d then
        match apply_set sp d upd with
        | Some d' => Ok (d' :: r, 1)
        | None => Err StoreError
        end
      else
        match update_first sp r oid upd with
        | Ok (r', n) => Ok (d :: r', n)
        | Err e => Err e
        end
  end.

(** [update_one]; every failure raises, which is a 500 ([StoreError]). *)
Definition update_one (sp : store_paths) (col : list doc) (oid : list Z) (upd : doc)
    : result (list doc * nat) :=
  match encode_doc upd with
  | None => Err StoreError
  | Some u => if update_parses sp u then update_first sp col oid u else Err StoreError
  end.

(** [delete_one(filter)]: the new collection and [deleted_count]. *)
Fixpoint delete_one (col : list doc) (oid : list Z) : list doc * nat :=
  match col with
  | [] => ([], 0)
  | d :: r =>
      if matches_oid oid d then (r, 1)
      else let '(r', n) := delete_one r oid in (d :: r', n)
  end.

(** [update_item(model_cls, id_str, data)] with [now] the value of
    [datetime.utcnow()] in microseconds: the collection afterwards and the
    outcome.  The update is [{**data, "updated_at": now}].  The returned
    document is the one [find_one] reads back (before [as_serializable]);
    [None] if it has gone. *)
Definition update_item (sp : store_paths) (col : list doc) (id_str : string) (data : doc)
    (now : Z) : list doc * result (option doc) :=
  match to_oid id_str with
  | Err e => (col, Err e)
  | Ok oid =>
      match update_one sp col oid (set_key "updated_at" (VTime now) data) with
      | Err e => (col, Err e)
      | Ok (col', 0) => (col', Err NotFoundError)
      | Ok (col', _) =>
          match to_oid id_str with
          | Ok oid' => (col', Ok (find_one col' oid'))
          | Err e => (col', Err e)
          end
      end
  end.

(** [delete_item(model_cls, id_str)]: [{"deleted": True}] is [Ok tt]. *)
Definition delete_item (col : list doc) (id_str : string) : list doc * result unit :=
  match to_oid id_str with
  | Err e => (col, Err e)
  | Ok oid =>
      let '(col', n) := delete_one col oid in
      match n with
      | 0 => (col', Err NotFoundError)
      | _ => (col', Ok tt)
      end
  end.

(** Modelled from the spec: [get_documents] and [create_document] of the
    repository's [database] module, which is not among the sources.  Spec
    4.1: [list(kind, filter, limit?)] returns the matching documents in the
    store's order (no sort), at most [limit] of them; [create] inserts a new
    document with a fresh identifier and creation metadata.  The store order
    is MongoDB's natural order, the order of insertion. *)
Definition get_documents (col : list doc) (filt : doc -> bool) (limit : option nat)
    : list doc :=
  let l := List.filter filt col in
  match limit with Some n => firstn n l | None => l end.

Definition create_document (col : list doc) (fields : doc) (oid : list Z) (now : Z)
    : list doc :=
  app col [("_id", VOid oid) :: app fields [("created_at", VTime now); ("updated_at", VTime now)]].

(** [get_profile]: [docs = list_items(Profile, limit=1)];
    [return docs[0] if docs else {}]. *)
Definition get_profile (col : list doc) : doc :=
  match get_documents col (fun _ => true) (Some 1) with
  | d :: _ => d
  | [] => []
  end.

(** The profile the spec says [GET /profile] returns: the most recently
    created one (greatest [created_at]; the first of equals), or [{}]. *)
Definition created_at (d : doc) : Z :=
  match lookup "created_at" d with Some (VTime t) => t | _ => 0%Z end.

Definition most_recent (col : list doc) : doc :=
  fold_left (fun best d => match best with
                           | [] => d
                           | _ => if Z.ltb (created_at best) (created_at d) then d else best
                           end) col [].

End Crud.

(* ------------------------------------------------------------------ *)
(** ** Statements of the specification about the endpoint *)

Module Spec.
Import AI.

(** A kind's [results] list: the top 5 of an arrangement of the retrieved
    documents by descending key in which documents of equal key keep their
    store order. *)
Definition ranked_top5 {A} (key : A -> nat) (docs rs : list A) : Prop :=
  exists ranked,
    rs = firstn 5 ranked /\ Permutation ranked docs /\
    Sorted (fun x y => key y <= key x) ranked /\
    (forall n, filter (fun x => Nat.eqb (key x) n) ranked
               = filter (fun x => Nat.eqb (key x) n) docs).

(** The three narrative sentences; a sentence exists when the kind's
    results list is non-empty. *)
Definition project_sentence (r : option (list Project.t)) : option string :=
  match r with
  | Some (top :: _) =>
      Some ("Top project: " ++ Project.title top ++ " — tech: "
              ++ Py.join ", " (Project.tech_stack top) ++ ".")
  | _ => None
  end.

Definition certificate_sentence (r : option (list Certificate.t)) : option string :=
  match r with
  | Some (topc :: _) =>
      Some ("Recent certificate: " ++ Certificate.title topc ++ " in "
              ++ Certificate.skill_category topc ++ ".")
  | _ => None
  end.

Definition journal_sentence (r : option (list JournalEntry.t)) : option string :=
  match r with
  | Some (topj :: _) =>
      Some ("Learning focus: " ++ Py.join ", " (firstn 3 (JournalEntry.tags topj)) ++ ".")
  | _ => None
  end.

Definition present (o : option string) : list string :=
  match o with Some s => [s] | None => [] end.

Definition sentences (r : Results) : list string :=
  present (project_sentence (r_projects r))
  ++ present (certificate_sentence (r_certificates r))
  ++ present (journal_sentence (r_journal r)).

Definition nonempty {A} (r : option (list A)) : bool :=
  match r with Some (_ :: _) => true | _ => false end.

(** The records of the ranking example of the spec. *)
Definition data_pipeline : Project.t := Project.mk "Data Pipeline" "" ["Python"; "SQL"] [].
Definition game_engine : Project.t := Project.mk "Game Engine" "" ["C++"] [].
Definition aws_certificate : Certificate.t := Certificate.mk "AWS" "Amazon" "Cloud" "".

(** [(payload.focus or "").lower()] *)
Definition focus_key (payload : AIQuery) : string :=
  Py.lower (match focus payload with Some f => f | None => "" end).

(** The condition a [GET /projects] parameter imposes on a list field,
    [None] when the store rejects its pattern. *)
Definition param_test (rx : Filter.regex) (o : option string) : option (list string -> bool) :=
  match o with
  | Some t => if Py.truthy t then option_map (fun m => existsb m) (rx t) else Some (fun _ => true)
  | None => Some (fun _ => true)
  end.

(** Whether [ai_query] runs at least one of its search blocks for the
    lower-cased focus [f]. *)
Definition searched (f : string) : bool :=
  focus_in f [""; "project"; "projects"] || focus_in f [""; "certificate"; "certificates"]
  || focus_in f [""; "journal"].

End Spec.

(** A sentence: a first character that is not whitespace, and a final ".". *)
Definition sentence_shape (s : string) : Prop :=
  exists c x, s = String c (x ++ ".") /\ Py.is_space c = false.

(** Sample identifiers: the ObjectIds with hex text "00..01" and "00..02". *)
Definition oid1 : list Z := repeat 0%Z 11 ++ [1%Z].
Definition oid2 : list Z := repeat 0%Z 11 ++ [2%Z].
Definition oid1_text : string := "000000000000000000000001".
Definition oid3 : list Z := repeat 0%Z 11 ++ [3%Z].
Definition oid3_text : string := "000000000000000000000003".

(** Two profiles created one after the other (at times 1 and 2). *)
Definition two_profiles : list Crud.doc :=
  Crud.create_document
    (Crud.create_document [] [("name", Crud.VStr "Lee")] oid1 1%Z)
    [("name", Crud.VStr "Lee W.")] oid2 2%Z.

(** A stored project: ObjectId "00..01", created 2024-06-15T12:22:03.456789. *)
Definition sample_project : Crud.doc :=
  [("_id", Crud.VOid oid1); ("title", Crud.VStr "Game Engine");
   ("created_at", Crud.VTime 1718454123456789%Z)].

(** A document whose [_id] is falsy (an empty text). *)
Definition sample_falsy_id : Crud.doc :=
  [("_id", Crud.VStr ""); ("updated_at", Crud.VTime 0%Z)].

(** An id of 24 characters, two of them spaces, that [ObjectId] accepts. *)
Definition spaced_id : string := "  0000000000000000000001".

(** A store that refuses every "$" name and every path into an array or a
    missing field. *)
Definition paths_rejected : Crud.store_paths.
Proof. refine (Crud.mkPaths (fun _ => false) (fun _ _ _ => None) _); discriminate. Defined.

(** A field name that [$set] takes as a top-level field: non-empty, without
    ".", not starting with "$", without NUL. *)
Definition plain_name (k : string) : bool :=
  Py.truthy k && negb (Py.contains "." k) && negb (Py.startswith k "$")
  && negb (Py.contains Crud.nul k).

Definition encodable (v : Crud.value) : bool :=
  match Crud.bson_value v with Some _ => true | None => false end.

(** A partial mapping of plain names to values the driver can encode. *)
Definition plain_update (data : Crud.doc) : bool :=
  forallb (fun kv => plain_name (fst kv) && encodable (snd kv)) data.

(** The value the store keeps of an encodable value. *)
Definition stored (v : Crud.value) : Crud.value :=
  match Crud.bson_value v with Some w => w | None => v end.

(** Whether the driver encodes and the server parses an update document. *)
Definition update_accepted (sp : Crud.store_paths) (upd : Crud.doc) : bool :=
  match Crud.encode_doc upd with Some u => Crud.update_parses sp u | None => false end.

(** The code's summary parts, [part (Some s) suffix = s ++ suffix]. *)
Definition part (o : option string) (suffix : string) : string :=
  match o with Some s => (s ++ suffix)%string | None => EmptyString end.

(* ------------------------------------------------------------------ *)
(** ** [as_serializable] and the text forms it produces *)

Module Serialize.
Import Crud.

(** Python truthiness of a stored value; an [ObjectId] and a [datetime]
    are always true. *)
Definition truthy (v : value) : bool :=
  match v with
  | VStr s => Py.truthy s
  | VInt z => negb (Z.eqb z 0)
  | VBool b => b
  | VNull => false
  | VStrs l => match l with [] => false | _ => true end
  | VOid _ => true
  | VTime _ => true
  end.

(** [str(ObjectId)]: [binascii.hexlify] of the 12 bytes, lower case. *)
Definition hex_digit (n : Z) : ascii :=
  if Z.ltb n 10 then ascii_of_nat (48 + Z.to_nat n) else ascii_of_nat (87 + Z.to_nat n).

Fixpoint hexlify (bs : list Z) : string :=
  match bs with
  | [] => EmptyString
  | b :: r => String (hex_digit (b / 16)) (String (hex_digit (b mod 16)) (hexlify r))
  end.

(** Decimal digits of a non-negative integer ([fuel] bounds their number). *)
Fixpoint z_digits (fuel : nat) (n : Z) (acc : string) : string :=
  match fuel with
  | O => acc
  | S f =>
      let acc' := String (ascii_of_nat (48 + Z.to_nat (n mod 10))) acc in
      if Z.ltb n 10 then acc' else z_digits f (n / 10) acc'
  end.

Definition nat_str (n : Z) : string := z_digits (S (Z.to_nat (Z.log2 n))) n EmptyString.

(** [str(int)] *)
Definition int_str (z : Z) : string :=
  if Z.ltb z 0 then String "-" (nat_str (- z)) else nat_str z.

(** [%0<w>d] for a non-negative integer. *)
Definition pad (w : nat) (n : Z) : string :=
  let s := nat_str n in
  (String.concat "" (repeat "0" (w - String.length s)) ++ s)%string.

(** A [datetime] is held as [VTime t], [t] microseconds after
    1970-01-01T00:00:00 (naive, as [datetime.utcnow()] gives).  Days to
    the proleptic Gregorian (year, month, day). *)
Definition civil_from_days (days : Z) : Z * Z * Z :=
  let z := (days + 719468)%Z in
  let era := (z / 146097)%Z in
  let doe := (z - era * 146097)%Z in
  let yoe := ((doe - doe / 1460 + doe / 36524 - doe / 146096) / 365)%Z in
  let doy := (doe - (365 * yoe + yoe / 4 - yoe / 100))%Z in
  let mp := ((5 * doy + 2) / 153)%Z in
  let d := (doy - (153 * mp + 2) / 5 + 1)%Z in
  let m := if Z.ltb mp 10 then (mp + 3)%Z else (mp - 9)%Z in
  let y := (yoe + era * 400 + (if Z.leb m 2 then 1 else 0))%Z in
  (y, m, d).

(** [dt.isoformat(sep)]: [YYYY-MM-DD<sep>HH:MM:SS], then [.ffffff] when
    the microseconds are not zero; [str(dt)] is [sep = " "]. *)
Definition isoformat (sep : string) (t : Z) : string :=
  let day := 86400000000%Z in
  let '(y, mo, d) := civil_from_days (t / day) in
  let r := (t mod day)%Z in
  let h := (r / 3600000000)%Z in
  let mi := ((r / 60000000) mod 60)%Z in
  let s := ((r / 1000000) mod 60)%Z in
  let us := (r mod 1000000)%Z in
  (pad 4 y ++ "-" ++ pad 2 mo ++ "-" ++ pad 2 d ++ sep ++ pad 2 h ++ ":" ++ pad 2 mi
     ++ ":" ++ pad 2 s ++ (if Z.eqb us 0 then "" else "." ++ pad 6 us))%string.

(** [repr(str)] for ASCII text: single quotes unless the text holds a
    single quote and no double quote; backslash, the quote, \t \n \r and
    the other control characters escaped. *)
Definition repr_char (q c : ascii) : string :=
  let n := nat_of_ascii c in
  if Ascii.eqb c "\" then "\\"
  else if Ascii.eqb c q then String "\" (String q EmptyString)
  else if (n =? 9)%nat then "\t"
  else if (n =? 10)%nat then "\n"
  else if (n =? 13)%nat then "\r"
  else if ((n <? 32) || (n =? 127))%nat then
    ("\x" ++ String (hex_digit (Z.of_nat n / 16)) (String (hex_digit (Z.of_nat n mod 16)) EmptyString))%string
  else String c EmptyString.

Fixpoint repr_body (q : ascii) (s : string) : string :=
  match s with
  | EmptyString => EmptyString
  | String c r => (repr_char q c ++ repr_body q r)%string
  end.

Definition repr_str (s : string) : string :=
  let dq := ascii_of_nat 34 in
  let q := if Py.contains "'" s && negb (Py.contains (String dq EmptyString) s) then dq else "'"%char in
  String q (repr_body q s ++ String q EmptyString).

(** [str(v)] *)
Definition py_str (v : value) : string :=
  match v with
  | VStr s => s
  | VInt z => int_str z
  | VBool true => "True"
  | VBool false => "False"
  | VNull => "None"
  | VStrs l => ("[" ++ String.concat ", " (map repr_str l) ++ "]")%string
  | VOid b => hexlify b
  | VTime t => isoformat " " t
  end.

(** [d.pop(k)] (the key is present when it is called). *)
Fixpoint remove_key (k : string) (d : doc) : doc :=
  match d with
  | [] => []
  | (k', v) :: r => if String.eqb k k' then r else (k', v) :: remove_key k r
  end.

(** The loop [for k, v in list(d.items()): if isinstance(v, datetime): ...]. *)
Definition convert_times (d : doc) : doc :=
  fold_left (fun acc '(k, v) =>
               match v with
               | VTime t => set_key k (VStr (isoformat "T" t)) acc
               | _ => acc
               end) d d.

(** [as_serializable(doc)] *)
Definition as_serializable (d0 : doc) : doc :=
  match d0 with
  | [] => []
  | _ =>
      let d := match lookup "_id" d0 with
               | Some v => if truthy v then set_key "id" (VStr (py_str v)) (remove_key "_id" d0)
                           else d0
               | None => d0
               end in
      convert_times d
  end.

End Serialize.

(** One step of the [datetime] loop of [as_serializable], on one item. *)
Definition conv_time (kv : string * Crud.value) : string * Crud.value :=
  match kv with
  | (k, Crud.VTime t) => (k, Crud.VStr (Serialize.isoformat "T" t))
  | _ => kv
  end.

Definition is_time (v : Crud.value) : bool :=
  match v with Crud.VTime _ => true | _ => false end.

(* ------------------------------------------------------------------ *)
(** ** [GET /certificates], [GET /journal] *)

Module Filter2.

(** [get_certs]: [filt["skill_category"] = {"$regex": skill, "$options": "i"}];
    [None] when the query fails. *)
Definition get_certs (rx : Filter.regex) (store : list Certificate.t) (skill : option string)
    : option (list Certificate.t) :=
  match skill with
  | Some s =>
      if Py.truthy s then
        match rx s with
        | Some m => Some (List.filter (fun c => m (Certificate.skill_category c)) store)
        | None => None
        end
      else Some store
  | None => Some store
  end.

(** [get_journal]: [filt["tags"] = {"$elemMatch": {"$regex": tag, "$options": "i"}}]. *)
Definition get_journal (rx : Filter.regex) (store : list JournalEntry.t) (tag : option string)
    : option (list JournalEntry.t) :=
  match tag with
  | Some t =>
      if Py.truthy t then
        match rx t with
        | Some m => Some (List.filter (fun j => existsb m (JournalEntry.tags j)) store)
        | None => None
        end
      else Some store
  | None => Some store
  end.

End Filter2.

(* ------------------------------------------------------------------ *)
(** ** [GET /test]: [test_database] *)

Module TestDb.

(** What the handler reads of a configured [db]: [getattr(db, "name", None)]
    and the outcome of [db.list_collection_names()], the names or the text
    of the exception raised (taken as ASCII text). *)
Record Handle := mkHandle { name : option string; listing : list string + string }.

Record Report := mkReport { backend : string; database : string; database_url : string;
                            database_name : string; connection_status : string;
                            collections : list string }.

Definition initial : Report :=
  mkReport "✅ Running" "❌ Not Available" "❌ Not Set" "❌ Not Set" "Not Connected" [].

(** [test_database()], with [db] [None] when no database is configured and
    [env_url] the value of [os.getenv("DATABASE_URL")].  The statements
    under the outer [try] other than [list_collection_names] do not raise
    ([getattr] has a default), so its handler is never reached. *)
Definition test_database (db : option Handle) (env_url : option string) : Report :=
  match db with
  | None => initial
  | Some h =>
      let url := match env_url with
                 | Some u => if Py.truthy u then "✅ Set" else "❌ Not Set"
                 | None => "❌ Not Set"
                 end in
      let nm := match name h with
                | Some n => if Py.truthy n then n else "✅ Connected"
                | None => "✅ Connected"
                end in
      match listing h with
      | inl names =>
          mkReport "✅ Running" "✅ Connected & Working" url nm "Connected" (firstn 20 names)
      | inr msg =>
          mkReport "✅ Running" ("⚠️ Connected but Error: " ++ substring 0 80 msg)
                   url nm "Connected" []
      end
  end.

End TestDb.

(* ------------------------------------------------------------------ *)
(** * Proofs *)

Open Scope list_scope.

(** ** Tokens and the score *)

Lemma split_aux_tokens_nonempty (s cur : string) :
  Forall (fun t => Py.truthy t = true) (Py.split_aux s cur).
Proof.
  revert cur; induction s as [|c s IH]; intros cur; simpl.
  - destruct cur; constructor; auto.
  - destruct (Py.is_space c).
    + destruct cur; [apply IH | constructor; [reflexivity | apply IH]].
    + apply IH.
Qed.

Lemma split_tokens_nonempty (s : string) :
  Forall (fun t => Py.truthy t = true) (Py.split s).
Proof. apply split_aux_tokens_nonempty. Qed.

Lemma rank_loop_count (toks : list string) (ltext : string) (score : nat) :
  Forall (fun t => Py.truthy t = true) toks ->
  AI.rank_loop toks ltext score
  = score + length (filter (fun t => Py.contains t ltext) toks).
Proof.
  revert score; induction toks as [|t toks IH]; intros score Hf; simpl.
  - lia.
  - inversion Hf as [|? ? Ht Hr]; subst.
    rewrite Ht, IH by exact Hr; simpl.
    destruct (Py.contains t ltext); simpl; lia.
Qed.

Lemma rank_text_count (q text : string) :
  AI.rank_text q text
  = length (filter (fun t => Py.contains t (Py.lower text)) (Py.split q)).
Proof.
  unfold AI.rank_text; rewrite rank_loop_count by apply split_tokens_nonempty.
  reflexivity.
Qed.

(** ** The stable descending sort *)

Section StableSort.
Context {A : Type} (key : A -> nat).

Let R := fun x y : A => key y <= key x.
Let eqk (n : nat) := fun x : A => Nat.eqb (key x) n.

Lemma insert_desc_perm (x : A) (l : list A) :
  Permutation (AI.insert_desc key x l) (x :: l).
Proof.
  induction l as [|y r IH]; simpl; [reflexivity|].
  destruct (Nat.ltb (key y) (key x)); [reflexivity|].
  rewrite IH; apply perm_swap.
Qed.

Lemma insert_desc_strongly_sorted (x : A) (l : list A) :
  StronglySorted R l -> StronglySorted R (AI.insert_desc key x l).
Proof.
  unfold R; induction l as [|y r IH]; simpl; intros Hs.
  - repeat constructor.
  - apply StronglySorted_inv in Hs as [Hr Hall].
    destruct (Nat.ltb (key y) (key x)) eqn:E.
    + apply Nat.ltb_lt in E.
      constructor; [constructor; assumption|].
      constructor; [lia|].
      eapply Forall_impl; [|exact Hall]; simpl; intros; lia.
    + apply Nat.ltb_ge in E.
      constructor; [apply IH, Hr|].
      eapply Permutation_Forall; [symmetry; apply insert_desc_perm|].
      constructor; assumption.
Qed.

Lemma filter_insert_desc (n : nat) (x : A) (l : list A) :
  StronglySorted R l ->
  filter (eqk n) (AI.insert_desc key x l)
  = filter (eqk n) l ++ (if eqk n x then [x] else []).
Proof.
  unfold R, eqk; induction l as [|y r IH]; simpl; intros Hs; [reflexivity|].
  apply StronglySorted_inv in Hs as [Hr Hall].
  destruct (Nat.ltb (key y) (key x)) eqn:E.
  - apply Nat.ltb_lt in E; simpl.
    destruct (Nat.eqb (key x) n) eqn:Ex.
    + apply Nat.eqb_eq in Ex; subst n.
      assert (Hnil : filter (fun z => Nat.eqb (key z) (key x)) (y :: r) = []).
      { rewrite (filter_ext_in _ (fun _ => false)); [apply filter_false|].
        intros z Hz; apply Nat.eqb_neq.
        destruct Hz as [<-|Hz]; [lia|].
        rewrite Forall_forall in Hall; specialize (Hall z Hz); lia. }
      simpl in Hnil; rewrite Hnil; reflexivity.
    + rewrite app_nil_r; reflexivity.
  - simpl; rewrite IH by exact Hr.
    destruct (Nat.eqb (key y) n); reflexivity.
Qed.

Lemma fold_insert_props (l acc : list A) :
  StronglySorted R acc ->
  let res := fold_left (fun a x => AI.insert_desc key x a) l acc in
  Permutation res (acc ++ l) /\ StronglySorted R res /\
  (forall n, filter (eqk n) res = filter (eqk n) acc ++ filter (eqk n) l).
Proof.
  revert acc; induction l as [|x l IH]; intros acc Hs; simpl.
  - rewrite !app_nil_r; split; [reflexivity|]; split; [exact Hs|].
    intros n; rewrite app_nil_r; reflexivity.
  - destruct (IH (AI.insert_desc key x acc)) as (Hp & Hs' & Hf);
      [apply insert_desc_strongly_sorted, Hs|].
    split; [|split; [exact Hs'|]].
    + rewrite Hp, insert_desc_perm.
      apply Permutation_cons_app; reflexivity.
    + intros n; rewrite Hf, filter_insert_desc by exact Hs.
      rewrite <- app_assoc; f_equal.
      simpl; destruct (eqk n x); reflexivity.
Qed.

Lemma sorted_desc_perm (l : list A) : Permutation (AI.sorted_desc key l) l.
Proof.
  destruct (fold_insert_props l [] (SSorted_nil _)) as (H & _ & _); exact H.
Qed.

Lemma sorted_desc_sorted (l : list A) : Sorted R (AI.sorted_desc key l).
Proof.
  destruct (fold_insert_props l [] (SSorted_nil _)) as (_ & H & _).
  apply StronglySorted_Sorted, H.
Qed.

Lemma sorted_desc_stable (n : nat) (l : list A) :
  filter (eqk n) (AI.sorted_desc key l) = filter (eqk n) l.
Proof.
  destruct (fold_insert_props l [] (SSorted_nil _)) as (_ & _ & H); apply H.
Qed.

Lemma sorted_desc_const (l : list A) (n : nat) :
  (forall x, key x = n) -> AI.sorted_desc key l = l.
Proof.
  intros Hk.
  assert (Hall : forall m, filter (eqk n) m = m).
  { intros m; apply forallb_filter_id, forallb_forall; intros x _.
    unfold eqk; rewrite Hk; apply Nat.eqb_refl. }
  rewrite <- (Hall (AI.sorted_desc key l)), sorted_desc_stable; apply Hall.
Qed.

Lemma top5_ranked (docs : list A) :
  Spec.ranked_top5 key docs (AI.top5 key docs).
Proof.
  exists (AI.sorted_desc key docs); split; [reflexivity|].
  split; [apply sorted_desc_perm|]; split; [apply sorted_desc_sorted|].
  intros n; apply (sorted_desc_stable n).
Qed.

End StableSort.

(** ** The outcome of [ai_query] *)

Lemma rank_text_no_tokens (q text : string) :
  Py.split q = [] -> AI.rank_text q text = 0.
Proof. intros H; unfold AI.rank_text; rewrite H; reflexivity. Qed.

Lemma top5_no_tokens {A} (q : string) (text : A -> string) (docs : list A) :
  Py.split q = [] ->
  AI.top5 (fun d => AI.rank_text q (text d)) docs = firstn 5 docs.
Proof.
  intros H; unfold AI.top5; f_equal.
  apply (sorted_desc_const _ _ 0); intros x; apply rank_text_no_tokens, H.
Qed.


Lemma focus_in_spec (f : string) (names : list string) :
  AI.focus_in f names = true <-> In f names.
Proof.
  unfold AI.focus_in; rewrite existsb_exists; split.
  - intros (x & Hx & E); apply String.eqb_eq in E; subst; exact Hx.
  - intros H; exists f; split; [exact H | apply String.eqb_refl].
Qed.


Lemma search_store {A} (d : AI.DB) (on : bool) (sel : AI.DB -> list A) (key : A -> nat) :
  AI.search (Some d) on sel key = if on then None else Some None.
Proof. destruct on; reflexivity. Qed.

Lemma search_no_db {A} (on : bool) (sel : AI.DB -> list A) (key : A -> nat) :
  AI.search None on sel key = Some (if on then Some [] else None).
Proof. destruct on; reflexivity. Qed.

Lemma ai_query_unfold (db : option AI.DB) (p : AI.AIQuery) :
  AI.ai_query db p =
  let q := Py.lower (AI.question p) in
  match AI.search db (AI.focus_in (Spec.focus_key p) [""; "project"; "projects"]) AI.projects
               (fun d => AI.rank_text q (AI.project_text d)) with
  | None => None
  | Some rp =>
      match AI.search db (AI.focus_in (Spec.focus_key p) [""; "certificate"; "certificates"])
                   AI.certificates (fun d => AI.rank_text q (AI.certificate_text d)) with
      | None => None
      | Some rc =>
          match AI.search db (AI.focus_in (Spec.focus_key p) [""; "journal"]) AI.journal
                       (fun d => AI.rank_text q (AI.journal_text d)) with
          | None => None
          | Some rj => Some (AI.respond rp rc rj)
          end
      end
  end.
Proof. reflexivity. Qed.

(** With a configured store, a request that runs a search block raises at
    [if db]. *)
Lemma ai_query_store_raises (d : AI.DB) (p : AI.AIQuery) :
  Spec.searched (Spec.focus_key p) = true -> AI.ai_query (Some d) p = None.
Proof.
  rewrite ai_query_unfold; unfold Spec.searched; cbv zeta; rewrite !search_store.
  generalize (Spec.focus_key p); intros f.
  destruct (AI.focus_in f [""; "project"; "projects"]),
    (AI.focus_in f [""; "certificate"; "certificates"]), (AI.focus_in f [""; "journal"]);
    simpl; intros H; try reflexivity; discriminate H.
Qed.

(** A request that runs no search block answers with nothing. *)
Lemma ai_query_unsearched (db : option AI.DB) (p : AI.AIQuery) :
  Spec.searched (Spec.focus_key p) = false ->
  AI.ai_query db p = Some (AI.mkResponse "" (AI.mkResults None None None)).
Proof.
  rewrite ai_query_unfold; unfold Spec.searched; cbv zeta.
  generalize (Spec.focus_key p); intros f.
  destruct (AI.focus_in f [""; "project"; "projects"]),
    (AI.focus_in f [""; "certificate"; "certificates"]), (AI.focus_in f [""; "journal"]);
    simpl; intros H; try discriminate H; reflexivity.
Qed.

(** Without a database every searched kind gets the empty list. *)
Lemma ai_query_no_db (p : AI.AIQuery) :
  AI.ai_query None p
  = Some (AI.respond
            (if AI.focus_in (Spec.focus_key p) [""; "project"; "projects"] then Some [] else None)
            (if AI.focus_in (Spec.focus_key p) [""; "certificate"; "certificates"]
             then Some [] else None)
            (if AI.focus_in (Spec.focus_key p) [""; "journal"] then Some [] else None)).
Proof.
  rewrite ai_query_unfold; cbv zeta; rewrite !search_no_db.
  destruct (AI.focus_in (Spec.focus_key p) [""; "project"; "projects"]),
    (AI.focus_in (Spec.focus_key p) [""; "certificate"; "certificates"]),
    (AI.focus_in (Spec.focus_key p) [""; "journal"]); reflexivity.
Qed.

Lemma ai_query_some (db : option AI.DB) (p : AI.AIQuery) (resp : AI.Response) :
  AI.ai_query db p = Some resp -> exists rp rc rj, resp = AI.respond rp rc rj.
Proof.
  rewrite ai_query_unfold; cbv zeta.
  repeat match goal with
  | |- context [match AI.search ?a ?b ?c ?e with None => _ | Some _ => _ end] =>
      destruct (AI.search a b c e)
  end; intros H; try discriminate H.
  injection H as <-; eauto.
Qed.

Lemma focus_searched (f : string) :
  Spec.searched f = true
  <-> In f [""; "project"; "projects"; "certificate"; "certificates"; "journal"].
Proof.
  unfold Spec.searched; rewrite !orb_true_iff, !focus_in_spec; simpl; tauto.
Qed.

(** ** The answer *)

Lemma str_app_assoc (a b c : string) : ((a ++ b) ++ c)%string = (a ++ (b ++ c))%string.
Proof. induction a as [|x a IH]; simpl; [reflexivity | rewrite IH; reflexivity]. Qed.

Lemma rstrip_app (s t : string) :
  Py.rstrip (s ++ t) = match Py.rstrip t with EmptyString => Py.rstrip s | r => (s ++ r)%string end.
Proof.
  induction s as [|c s IH]; simpl.
  - destruct (Py.rstrip t); reflexivity.
  - rewrite IH. destruct (Py.rstrip t) eqn:E; [reflexivity|].
    destruct s; reflexivity.
Qed.

Lemma rstrip_sentence (s : string) : sentence_shape s -> Py.rstrip s = s.
Proof.
  intros (c & x & -> & _).
  change (String c (x ++ ".")) with (String c x ++ ".")%string.
  rewrite rstrip_app; reflexivity.
Qed.

Lemma rstrip_sentence_space (s : string) :
  sentence_shape s -> Py.rstrip (s ++ " ") = s.
Proof. intros H; rewrite rstrip_app; simpl; apply rstrip_sentence, H. Qed.

Lemma sentence_nonempty (s : string) : sentence_shape s -> s <> EmptyString.
Proof. intros (c & x & -> & _); discriminate. Qed.

Lemma lstrip_sentence (s t : string) : sentence_shape s -> Py.lstrip (s ++ t) = (s ++ t)%string.
Proof. intros (c & x & -> & Hc); simpl; rewrite Hc; reflexivity. Qed.

Lemma str_app_nil_r (s : string) : (s ++ "")%string = s.
Proof. induction s as [|c s IH]; simpl; [reflexivity | rewrite IH; reflexivity]. Qed.

Lemma rstrip_part (s rest : string) :
  sentence_shape s ->
  Py.rstrip ((s ++ " ") ++ rest)
  = match Py.rstrip rest with EmptyString => s | r => ((s ++ " ") ++ r)%string end.
Proof. intros H; rewrite rstrip_app, rstrip_sentence_space by exact H; reflexivity. Qed.

Lemma lstrip_sentence0 (s : string) : sentence_shape s -> Py.lstrip s = s.
Proof.
  intros H; rewrite <- (str_app_nil_r s) at 1; rewrite lstrip_sentence by exact H.
  apply str_app_nil_r.
Qed.

Lemma rstrip_sentence_shape (s : string) :
  sentence_shape s -> exists c r, Py.rstrip s = String c r.
Proof.
  intros H; rewrite rstrip_sentence by exact H.
  destruct H as (c & x & -> & _); eauto.
Qed.

Ltac finish_parts :=
  repeat match goal with
  | H : sentence_shape _ |- _ =>
      let c := fresh "c" in let x := fresh "x" in let Hc := fresh "Hc" in
      destruct H as (c & x & -> & Hc)
  end;
  simpl; repeat match goal with H : Py.is_space _ = false |- _ => rewrite H; clear H end;
  rewrite ?str_app_assoc; reflexivity.

(** [summary.strip()] of the accumulated parts is the sentences joined by
    single spaces. *)
Lemma strip_parts (op oc oj : option string) :
  Forall sentence_shape (Spec.present op ++ Spec.present oc ++ Spec.present oj) ->
  Py.strip (part op " " ++ part oc " " ++ part oj "")
  = Py.join " " (Spec.present op ++ Spec.present oc ++ Spec.present oj).
Proof.
  unfold Py.strip, Py.join.
  destruct op as [p|], oc as [c|], oj as [j|]; simpl; intros Hf;
    repeat match type of Hf with
    | Forall _ (_ :: _) => let H := fresh "Hs" in
                          apply Forall_cons_iff in Hf as [H Hf]
    end;
    rewrite ?str_app_nil_r;
    repeat match goal with
    | H : sentence_shape ?s |- context [Py.rstrip ((?s ++ " ") ++ _)] =>
        rewrite (rstrip_part s _ H)
    | H : sentence_shape ?s |- context [Py.rstrip (?s ++ " ")] =>
        rewrite (rstrip_sentence_space s H)
    | H : sentence_shape ?s |- context [Py.rstrip ?s] =>
        rewrite (rstrip_sentence s H)
    end;
    finish_parts.
Qed.

Lemma project_part_eq (o : option (list Project.t)) :
  AI.project_part o = part (Spec.project_sentence o) " ".
Proof.
  destruct o as [[|top rest]|]; cbn [part Spec.project_sentence Spec.certificate_sentence
    AI.project_part AI.certificate_part]; rewrite ?str_app_assoc; reflexivity.
Qed.

Lemma certificate_part_eq (o : option (list Certificate.t)) :
  AI.certificate_part o = part (Spec.certificate_sentence o) " ".
Proof.
  destruct o as [[|top rest]|]; cbn [part Spec.project_sentence Spec.certificate_sentence
    AI.project_part AI.certificate_part]; rewrite ?str_app_assoc; reflexivity.
Qed.

Lemma journal_part_eq (o : option (list JournalEntry.t)) :
  AI.journal_part o = part (Spec.journal_sentence o) "".
Proof.
  destruct o as [[|top rest]|]; cbn [part Spec.journal_sentence AI.journal_part];
    rewrite ?str_app_nil_r; reflexivity.
Qed.

Lemma dot_sentence_shape (s : string) :
  (exists c rest, s = String c rest /\ Py.is_space c = false) -> sentence_shape (s ++ ".").
Proof. intros (c & rest & -> & Hc); exists c, rest; split; [reflexivity | exact Hc]. Qed.

Lemma present_shape (o : option string) :
  (forall s, o = Some s -> sentence_shape s) -> Forall sentence_shape (Spec.present o).
Proof. destruct o as [s|]; simpl; intros H; [constructor; [apply H|]|]; auto. Qed.

Lemma sentences_shape (r : AI.Results) : Forall sentence_shape (Spec.sentences r).
Proof.
  destruct r as [rp rc rj]; unfold Spec.sentences; cbn [AI.r_projects AI.r_certificates AI.r_journal].
  apply Forall_app; split; [|apply Forall_app; split]; apply present_shape; intros s Hs.
  - destruct rp as [[|tp ?]|]; unfold Spec.project_sentence, Spec.certificate_sentence, Spec.journal_sentence in Hs;
      cbv beta iota in Hs; try discriminate;
      match type of Hs with Some ?t = Some _ => assert (E : s = t) by congruence end; subst s.
    rewrite <- !str_app_assoc; apply dot_sentence_shape.
    eexists _, _; split; reflexivity.
  - destruct rc as [[|tc ?]|]; unfold Spec.project_sentence, Spec.certificate_sentence, Spec.journal_sentence in Hs;
      cbv beta iota in Hs; try discriminate;
      match type of Hs with Some ?t = Some _ => assert (E : s = t) by congruence end; subst s.
    rewrite <- !str_app_assoc; apply dot_sentence_shape.
    eexists _, _; split; reflexivity.
  - destruct rj as [[|tj ?]|]; unfold Spec.project_sentence, Spec.certificate_sentence, Spec.journal_sentence in Hs;
      cbv beta iota in Hs; try discriminate;
      match type of Hs with Some ?t = Some _ => assert (E : s = t) by congruence end; subst s.
    rewrite <- !str_app_assoc; apply dot_sentence_shape.
    eexists _, _; split; reflexivity.
Qed.

Lemma join_nonempty (s : string) (ss : list string) :
  sentence_shape s -> Py.join " " (s :: ss) <> EmptyString.
Proof.
  intros (c & x & -> & _); unfold Py.join; simpl; destruct ss; discriminate.
Qed.

Lemma rstrip_join (ss : list string) :
  Forall sentence_shape ss -> Py.rstrip (Py.join " " ss) = Py.join " " ss.
Proof.
  induction ss as [|s ss IH]; intros Hf; [reflexivity|].
  apply Forall_cons_iff in Hf as [Hs Hf].
  destruct ss as [|s2 ss]; [apply rstrip_sentence, Hs|].
  assert (Hj : Py.join " " (s :: s2 :: ss) = (s ++ " " ++ Py.join " " (s2 :: ss))%string)
    by reflexivity.
  rewrite Hj, rstrip_app, (rstrip_app " "), (IH Hf).
  assert (Hn : Py.join " " (s2 :: ss) <> EmptyString)
    by (apply join_nonempty; inversion Hf; assumption).
  destruct (Py.join " " (s2 :: ss)); [congruence | reflexivity].
Qed.


Lemma respond_answer (rp : option (list Project.t)) (rc : option (list Certificate.t))
    (rj : option (list JournalEntry.t)) :
  AI.answer (AI.respond rp rc rj) = Py.join " " (Spec.sentences (AI.results (AI.respond rp rc rj))).
Proof.
  change (AI.answer (AI.respond rp rc rj))
    with (Py.strip (AI.project_part rp ++ AI.certificate_part rc ++ AI.journal_part rj)).
  rewrite project_part_eq, certificate_part_eq, journal_part_eq.
  apply strip_parts, (sentences_shape (AI.mkResults rp rc rj)).
Qed.

Lemma ai_query_answer_join (db : option AI.DB) (p : AI.AIQuery) (resp : AI.Response) :
  AI.ai_query db p = Some resp -> AI.answer resp = Py.join " " (Spec.sentences (AI.results resp)).
Proof. intros H; destruct (ai_query_some db p resp H) as (rp & rc & rj & ->); apply respond_answer. Qed.

(** ** C1 *)

(** C1 (the code departs from it): the score is the number of tokens of the
    lower-cased question, counted with repetition, that are substrings of the
    lower-cased search text; "python data" scores "Data Pipeline" 2 and
    "Game Engine" 0 and the ranking puts the first before the second.  But
    with a configured store the request raises at [if db] (a pymongo
    [Database] has no truth value), so no ranked output is ever returned;
    without a database the projects list is empty. *)
Theorem ai_query_project_score (question : string) (p : Project.t) :
  AI.rank_text (Py.lower question) (AI.project_text p)
  = length (filter (fun t => Py.contains t (Py.lower (AI.project_text p)))
                   (Py.split (Py.lower question)))
  /\ AI.rank_text (Py.lower "python data") (AI.project_text Spec.data_pipeline) = 2
  /\ AI.rank_text (Py.lower "python data") (AI.project_text Spec.game_engine) = 0
  /\ AI.rank_text (Py.lower "data data") (AI.project_text Spec.data_pipeline) = 2
  /\ AI.top5 (fun d => AI.rank_text (Py.lower "python data") (AI.project_text d))
             [Spec.game_engine; Spec.data_pipeline] = [Spec.data_pipeline; Spec.game_engine]
  /\ (forall cs js,
        AI.ai_query (Some (AI.mkDB [Spec.data_pipeline; Spec.game_engine] cs js))
                    (AI.mkQuery "python data" None) = None)
  /\ (forall cs js,
        AI.ai_query (Some (AI.mkDB [Spec.game_engine; Spec.data_pipeline] cs js))
                    (AI.mkQuery "python data" None) = None)
  /\ (exists resp, AI.ai_query None (AI.mkQuery "python data" None) = Some resp
                   /\ AI.r_projects (AI.results resp) = Some []).
Proof.
  split; [apply rank_text_count|].
  split; [reflexivity|]. split; [reflexivity|]. split; [reflexivity|].
  split; [reflexivity|].
  split; [intros cs js; reflexivity|]. split; [intros cs js; reflexivity|].
  eexists; split; reflexivity.
Qed.

(** ** C2 *)

(** C2 (the code departs from it): the ranking the code computes, [top5],
    is the top 5 of a stable sort by descending score, and for a question
    without tokens it is the first five documents in store order.  But with
    a configured store every request that searches a kind raises at
    [if db], the empty question included, so no ranking is returned. *)
Theorem ai_query_stable_ranking {A} (key : A -> nat) (docs : list A) :
  Spec.ranked_top5 key docs (AI.top5 key docs)
  /\ (forall (text : A -> string),
        AI.top5 (fun d => AI.rank_text (Py.lower "") (text d)) docs = firstn 5 docs)
  /\ (forall d p, Spec.searched (Spec.focus_key p) = true -> AI.ai_query (Some d) p = None)
  /\ (forall d, AI.ai_query (Some d) (AI.mkQuery "" None) = None).
Proof.
  split; [apply top5_ranked|].
  split; [intros text; apply top5_no_tokens; reflexivity|].
  split; [apply ai_query_store_raises|].
  intros d; apply ai_query_store_raises; reflexivity.
Qed.

(** ** C3 *)

(** C3 (the code departs from it): without a database the results mapping
    has an entry exactly for the kinds the focus selects (all three for an
    unset or empty focus, one for a recognised name in any case, none
    otherwise), and an unrecognised focus gives no entry whatever the
    database.  But with a configured store any recognised or empty focus
    makes the request raise at [if db], "Certificates" included. *)
Theorem ai_query_focus_kinds :
  (forall p, exists resp, AI.ai_query None p = Some resp
     /\ (AI.r_projects (AI.results resp) <> None
         <-> In (Spec.focus_key p) [""; "project"; "projects"])
     /\ (AI.r_certificates (AI.results resp) <> None
         <-> In (Spec.focus_key p) [""; "certificate"; "certificates"])
     /\ (AI.r_journal (AI.results resp) <> None <-> In (Spec.focus_key p) [""; "journal"]))
  /\ (forall db p,
        ~ In (Spec.focus_key p) [""; "project"; "projects"; "certificate"; "certificates"; "journal"] ->
        AI.ai_query db p = Some (AI.mkResponse "" (AI.mkResults None None None)))
  /\ (forall d p,
        In (Spec.focus_key p) [""; "project"; "projects"; "certificate"; "certificates"; "journal"] ->
        AI.ai_query (Some d) p = None)
  /\ (forall d q, AI.ai_query (Some d) (AI.mkQuery q (Some "Certificates")) = None).
Proof.
  split; [|split; [|split]].
  - intros p; rewrite ai_query_no_db; eexists; split; [reflexivity|].
    cbn [AI.respond AI.results AI.r_projects AI.r_certificates AI.r_journal].
    rewrite <- !focus_in_spec.
    destruct (AI.focus_in (Spec.focus_key p) [""; "project"; "projects"]),
      (AI.focus_in (Spec.focus_key p) [""; "certificate"; "certificates"]),
      (AI.focus_in (Spec.focus_key p) [""; "journal"]);
      repeat split; try discriminate; intros H; congruence.
  - intros db p Hn; apply ai_query_unsearched.
    apply not_true_iff_false; rewrite focus_searched; exact Hn.
  - intros d p Hin; apply ai_query_store_raises, focus_searched, Hin.
  - intros d q; apply ai_query_store_raises; reflexivity.
Qed.

(** ** C4 *)

(** C4 (the code departs from it): whenever [ai_query] answers, the answer
    is the present sentences, in the order projects, certificates, journal,
    joined by single spaces, with no trailing whitespace; a kind's sentence
    is present exactly when its results list is non-empty, and the journal
    sentence lists at most the first three tags of the top entry.  But with
    a configured store a request that searches a kind raises at [if db], so
    it answers only without a database (every list empty, no sentence) or
    for an unrecognised focus. *)
Theorem ai_query_answer :
  (forall db p resp, AI.ai_query db p = Some resp ->
     let r := AI.results resp in
     AI.answer resp = Py.join " " (Spec.sentences r)
     /\ Py.rstrip (AI.answer resp) = AI.answer resp
     /\ (Spec.project_sentence (AI.r_projects r) <> None
         <-> Spec.nonempty (AI.r_projects r) = true)
     /\ (Spec.certificate_sentence (AI.r_certificates r) <> None
         <-> Spec.nonempty (AI.r_certificates r) = true)
     /\ (Spec.journal_sentence (AI.r_journal r) <> None
         <-> Spec.nonempty (AI.r_journal r) = true)
     /\ (forall s, Spec.journal_sentence (AI.r_journal r) = Some s ->
           exists top rest, AI.r_journal r = Some (top :: rest)
             /\ length (firstn 3 (JournalEntry.tags top)) <= 3
             /\ s = ("Learning focus: " ++ Py.join ", " (firstn 3 (JournalEntry.tags top))
                       ++ ".")%string))
  /\ (forall p, exists resp, AI.ai_query None p = Some resp /\ Spec.sentences (AI.results resp) = [])
  /\ (forall d q, AI.ai_query (Some d) (AI.mkQuery q None) = None).
Proof.
  split; [|split].
  - intros db p resp Hq r.
    assert (Ha : AI.answer resp = Py.join " " (Spec.sentences r))
      by apply (ai_query_answer_join db p resp Hq).
    split; [exact Ha|]. split.
    + rewrite Ha; apply rstrip_join, sentences_shape.
    + destruct (AI.r_projects r) as [[|]|], (AI.r_certificates r) as [[|]|],
        (AI.r_journal r) as [[|tj rest]|];
        cbn [Spec.project_sentence Spec.certificate_sentence Spec.journal_sentence Spec.nonempty];
        repeat split; try congruence; intros s Hs; try discriminate;
        exists tj, rest; (split; [reflexivity|]); (split; [apply firstn_le_length|]); congruence.
  - intros p; rewrite ai_query_no_db; eexists; split; [reflexivity|].
    destruct (AI.focus_in (Spec.focus_key p) [""; "project"; "projects"]),
      (AI.focus_in (Spec.focus_key p) [""; "certificate"; "certificates"]),
      (AI.focus_in (Spec.focus_key p) [""; "journal"]); reflexivity.
  - intros d q; apply ai_query_store_raises; reflexivity.
Qed.

(** ** C5 *)

(** C5 (the code departs from it): with focus unset, a store holding the
    project "Game Engine" and the certificate "AWS", and the question "aws",
    only the certificate matches (scores 0 and 1), yet the request raises at
    [if db].  Were the searches run on that store, the answer would hold
    both the project and the certificate sentence, since a sentence is
    emitted for every non-empty results list whatever the scores. *)
Theorem ai_query_only_certificate_matches_raises :
  AI.rank_text (Py.lower "aws") (AI.project_text Spec.game_engine) = 0
  /\ AI.rank_text (Py.lower "aws") (AI.certificate_text Spec.aws_certificate) = 1
  /\ AI.ai_query (Some (AI.mkDB [Spec.game_engine] [Spec.aws_certificate] []))
                 (AI.mkQuery "aws" None) = None
  /\ AI.answer (AI.respond
        (Some (AI.top5 (fun d => AI.rank_text (Py.lower "aws") (AI.project_text d))
                       [Spec.game_engine]))
        (Some (AI.top5 (fun d => AI.rank_text (Py.lower "aws") (AI.certificate_text d))
                       [Spec.aws_certificate]))
        (Some []))
     = "Top project: Game Engine — tech: C++. Recent certificate: AWS in Cloud.".
Proof. repeat split; reflexivity. Qed.

(** ** C6 *)

(** C6 (the code departs from it): after two profiles are created, the
    store's natural order lists the older first and [GET /profile] returns
    it, not the most recently created one; with no profile it returns [{}]. *)
Lemma get_profile_returns_first_created :
  Crud.lookup "name" (Crud.get_profile two_profiles) = Some (Crud.VStr "Lee")
  /\ Crud.lookup "name" (Crud.most_recent two_profiles) = Some (Crud.VStr "Lee W.")
  /\ Crud.get_profile two_profiles <> Crud.most_recent two_profiles
  /\ Crud.get_profile [] = [].
Proof.
  split; [reflexivity|]. split; [reflexivity|]. split; [|reflexivity].
  vm_compute; congruence.
Qed.

(** ** C7 *)

(** C7 (the code departs from it): [GET /projects] hands each non-empty
    parameter to the store as a case-insensitive regular expression, so the
    request fails when the store rejects the pattern (such as "[") and
    succeeds otherwise with the projects, in store order, one of whose
    highlights (tech_stack) matches the compiled tag (tech), the two
    conditions combined with AND; an absent or empty parameter imposes no
    condition, so with no parameter all projects are listed, and an empty
    tag also lists a project with no highlights, though none of its
    highlights contains "". *)
Theorem get_projects_filter (rx : Filter.regex) (store : list Project.t)
    (tag tech : option string) :
  Filter.get_projects rx store tag tech
  = match Spec.param_test rx tag, Spec.param_test rx tech with
    | Some a, Some b =>
        Some (filter (fun d => a (Project.highlights d) && b (Project.tech_stack d)) store)
    | _, _ => None
    end
  /\ Filter.get_projects rx store None None = Some store
  /\ (forall tech', rx "[" = None -> Filter.get_projects rx store (Some "[") tech' = None)
  /\ Filter.get_projects rx [Spec.game_engine] (Some "") None = Some [Spec.game_engine]
  /\ existsb (Filter.ci_contains "") (Project.highlights Spec.game_engine) = false.
Proof.
  split; [|split; [|split; [|split]]].
  - unfold Filter.get_projects, Filter.build_project_filter, Spec.param_test.
    destruct tag as [t|]; [destruct (Py.truthy t)|];
      destruct tech as [u|]; try destruct (Py.truthy u);
      cbn [app Filter.compile option_map];
      try destruct (rx t) as [m|]; try destruct (rx u) as [n|]; cbn [option_map];
      try reflexivity;
      f_equal; apply filter_ext; intros d; unfold Filter.matches_filter; simpl;
      rewrite ?andb_true_r; reflexivity.
  - unfold Filter.get_projects; simpl; f_equal.
    induction store as [|d r IH]; simpl; [reflexivity | rewrite IH; reflexivity].
  - intros tech' H; unfold Filter.get_projects, Filter.build_project_filter; simpl.
    rewrite H; reflexivity.
  - reflexivity.
  - reflexivity.
Qed.

(** ** C8 *)

Lemma to_oid_error (id_str : string) (e : Crud.error) :
  Crud.to_oid id_str = Crud.Err e -> e = Crud.InvalidIdError.
Proof.
  unfold Crud.to_oid.
  destruct (Nat.eqb (String.length id_str) 24); [destruct (Crud.fromhex id_str)|];
    congruence.
Qed.

(** C8: an id that [ObjectId] rejects makes [update_item] and [delete_item]
    fail with [InvalidIdError] (HTTP 400) before the store is touched: the
    collection is returned unchanged. *)
Theorem invalid_id_fails_fast (sp : Crud.store_paths) (col : list Crud.doc) (id_str : string)
    (data : Crud.doc) (now : Z) :
  (forall oid, Crud.to_oid id_str <> Crud.Ok oid) ->
  Crud.update_item sp col id_str data now = (col, Crud.Err Crud.InvalidIdError)
  /\ Crud.delete_item col id_str = (col, Crud.Err Crud.InvalidIdError).
Proof.
  intros Hbad.
  unfold Crud.update_item, Crud.delete_item.
  destruct (Crud.to_oid id_str) as [oid|e] eqn:E.
  - exfalso; exact (Hbad oid eq_refl).
  - apply to_oid_error in E; subst e; split; reflexivity.
Qed.

(** ** Plain updates *)

Lemma path_aux_nodot (s cur : string) :
  Py.contains "." s = false -> Crud.path_aux s cur = [(cur ++ s)%string].
Proof.
  revert cur; induction s as [|c s IH]; intros cur H; cbn [Crud.path_aux].
  - rewrite str_app_nil_r; reflexivity.
  - cbn [Py.contains] in H; apply orb_false_iff in H as [Hc Hs].
    destruct (Ascii.eqb_spec c ".") as [->|Hne].
    + simpl in Hc; destruct s; discriminate Hc.
    + rewrite (IH _ Hs), str_app_assoc; reflexivity.
Qed.

Lemma path_plain (k : string) : plain_name k = true -> Crud.path k = [k].
Proof.
  unfold plain_name; intros H.
  apply andb_true_iff in H as [H _]; apply andb_true_iff in H as [H _].
  apply andb_true_iff in H as [_ H]; apply negb_true_iff in H.
  unfold Crud.path; rewrite (path_aux_nodot k "" H); reflexivity.
Qed.

Lemma plain_not_dollar (k : string) : plain_name k = true -> Py.startswith k "$" = false.
Proof.
  unfold plain_name; intros H.
  apply andb_true_iff in H as [H _]; apply andb_true_iff in H as [_ H].
  apply negb_true_iff in H; exact H.
Qed.

Lemma plain_no_nul (k : string) : plain_name k = true -> Py.contains Crud.nul k = false.
Proof. unfold plain_name; intros H; apply andb_true_iff in H as [_ H]; apply negb_true_iff, H. Qed.

Lemma plain_truthy (k : string) : plain_name k = true -> Py.truthy k = true.
Proof.
  unfold plain_name; intros H; do 3 (apply andb_true_iff in H as [H _]); exact H.
Qed.

Lemma plain_update_cons (k : string) (v : Crud.value) (d : Crud.doc) :
  plain_update ((k, v) :: d) = true
  <-> plain_name k = true /\ encodable v = true /\ plain_update d = true.
Proof. unfold plain_update; simpl; rewrite !andb_true_iff; tauto. Qed.

Lemma encode_plain (d : Crud.doc) :
  plain_update d = true ->
  Crud.encode_doc d = Some (map (fun kv => (fst kv, stored (snd kv))) d).
Proof.
  induction d as [|[k v] r IH]; intros H; [reflexivity|].
  apply plain_update_cons in H as (Hk & Hv & Hr).
  simpl; rewrite (plain_no_nul k Hk), (IH Hr).
  unfold encodable in Hv; unfold stored.
  destruct (Crud.bson_value v); [reflexivity | discriminate].
Qed.

Lemma plain_update_set_key (k : string) (v : Crud.value) (d : Crud.doc) :
  plain_name k = true -> encodable v = true -> plain_update d = true ->
  plain_update (Crud.set_key k v d) = true.
Proof.
  intros Hk Hv; induction d as [|[k0 v0] r IH]; intros H.
  - apply plain_update_cons; repeat split; assumption.
  - apply plain_update_cons in H as (Hk0 & Hv0 & Hr); simpl.
    destruct (String.eqb k k0); apply plain_update_cons; repeat split; auto.
Qed.

Lemma no_conflict_names (u : Crud.doc) :
  NoDup (map fst u) -> Crud.no_conflict (map (fun kv => [fst kv]) u) = true.
Proof.
  induction u as [|[k v] r IH]; intros Hnd; [reflexivity|].
  cbn [map fst] in Hnd; apply NoDup_cons_iff in Hnd as [Hn Hnd].
  simpl; rewrite (IH Hnd), andb_true_r.
  apply forallb_forall; intros q Hq; apply in_map_iff in Hq as ([k' v'] & <- & Hin).
  simpl; rewrite !andb_true_r.
  destruct (String.eqb_spec k k') as [->|Hne].
  - exfalso; apply Hn, (in_map fst _ _ Hin).
  - destruct (String.eqb_spec k' k); [congruence | reflexivity].
Qed.

Lemma update_parses_plain (sp : Crud.store_paths) (u : Crud.doc) :
  forallb (fun kv => plain_name (fst kv)) u = true -> NoDup (map fst u) ->
  Crud.update_parses sp u = true.
Proof.
  intros Hp Hnd; unfold Crud.update_parses.
  rewrite forallb_forall in Hp.
  apply andb_true_iff; split.
  - apply forallb_forall; intros [k v] Hin; specialize (Hp _ Hin); simpl in *.
    unfold Crud.path_ok; rewrite (path_plain k Hp); simpl.
    rewrite (plain_truthy k Hp), (plain_not_dollar k Hp); reflexivity.
  - rewrite (map_ext_in (fun kv => Crud.path (fst kv)) (fun kv => [fst kv]) u).
    + apply no_conflict_names, Hnd.
    + intros kv Hin; apply path_plain, (Hp _ Hin).
Qed.

Lemma update_accepted_plain (sp : Crud.store_paths) (upd : Crud.doc) :
  plain_update upd = true -> NoDup (map fst upd) -> update_accepted sp upd = true.
Proof.
  intros Hp Hnd; unfold update_accepted; rewrite (encode_plain upd Hp).
  apply update_parses_plain.
  - apply forallb_forall; intros kv Hin; apply in_map_iff in Hin as ([k v] & <- & Hin); simpl.
    unfold plain_update in Hp; rewrite forallb_forall in Hp.
    specialize (Hp _ Hin); apply andb_true_iff in Hp as [Hp _]; exact Hp.
  - rewrite map_map; simpl; exact Hnd.
Qed.

(** ** C9 *)

Lemma update_first_no_match (sp : Crud.store_paths) (col : list Crud.doc) (oid : list Z)
    (upd : Crud.doc) :
  Crud.find_one col oid = None -> Crud.update_first sp col oid upd = Crud.Ok (col, 0).
Proof.
  unfold Crud.find_one; induction col as [|d r IH]; simpl; [reflexivity|].
  destruct (Crud.matches_oid oid d); [discriminate|].
  intros H; rewrite (IH H); reflexivity.
Qed.

Lemma update_one_no_match (sp : Crud.store_paths) (col : list Crud.doc) (oid : list Z)
    (upd : Crud.doc) :
  Crud.find_one col oid = None ->
  Crud.update_one sp col oid upd
  = if update_accepted sp upd then Crud.Ok (col, 0) else Crud.Err Crud.StoreError.
Proof.
  intros H; unfold Crud.update_one, update_accepted.
  destruct (Crud.encode_doc upd) as [u|]; [|reflexivity].
  destruct (Crud.update_parses sp u); [apply update_first_no_match, H | reflexivity].
Qed.

Lemma delete_one_no_match (col : list Crud.doc) (oid : list Z) :
  Crud.find_one col oid = None -> Crud.delete_one col oid = (col, 0).
Proof.
  unfold Crud.find_one; induction col as [|d r IH]; simpl; [reflexivity|].
  destruct (Crud.matches_oid oid d); [discriminate|].
  intros H; rewrite (IH H); reflexivity.
Qed.

Lemma matches_oid_doc_id (oid : list Z) (d : Crud.doc) :
  Crud.matches_oid oid d = true <-> Crud.doc_id d = Some (Crud.VOid oid).
Proof.
  unfold Crud.matches_oid; destruct (Crud.doc_id d) as [v|]; [|split; congruence].
  destruct (Crud.value_eq_dec v (Crud.VOid oid)); split; congruence.
Qed.

Lemma find_one_none (col : list Crud.doc) (oid : list Z) :
  (forall d, In d col -> Crud.doc_id d <> Some (Crud.VOid oid)) ->
  Crud.find_one col oid = None.
Proof.
  unfold Crud.find_one; induction col as [|d r IH]; simpl; intros H; [reflexivity|].
  destruct (Crud.matches_oid oid d) eqn:E.
  - apply matches_oid_doc_id in E; exfalso; exact (H d (or_introl eq_refl) E).
  - apply IH; intros d' Hd'; apply H; right; exact Hd'.
Qed.

(** With distinct identifiers, a document removed by [delete_one] leaves no
    document with its identifier. *)
Lemma delete_one_removes (col col' : list Crud.doc) (oid : list Z) (n : nat) :
  NoDup (map Crud.doc_id col) ->
  Crud.delete_one col oid = (col', n) -> n <> 0 ->
  Crud.find_one col' oid = None.
Proof.
  revert col' n; induction col as [|d r IH]; simpl; intros col' n Hnd Hdel Hn.
  - injection Hdel as <- <-; congruence.
  - apply NoDup_cons_iff in Hnd as [Hnotin Hnd].
    destruct (Crud.matches_oid oid d) eqn:E.
    + injection Hdel as <- <-.
      apply matches_oid_doc_id in E.
      apply find_one_none; intros d' Hd' E'.
      apply Hnotin; rewrite E, <- E'; apply in_map, Hd'.
    + destruct (Crud.delete_one r oid) as [r' m] eqn:Er.
      injection Hdel as <- <-.
      unfold Crud.find_one; simpl; rewrite E.
      apply (IH r' m Hnd eq_refl Hn).
Qed.

Lemma set_key_keys_nodup (k : string) (v : Crud.value) (d : Crud.doc) :
  NoDup (map fst d) -> NoDup (map fst (Crud.set_key k v d)).
Proof.
  induction d as [|[k0 v0] r IH]; simpl; intros Hnd.
  - repeat constructor; simpl; tauto.
  - apply NoDup_cons_iff in Hnd as [Hn Hnd].
    destruct (String.eqb_spec k k0) as [->|Hk]; simpl; constructor; auto.
    intros Hin; apply Hn.
    assert (Hkeys : forall l, In k0 (map fst (Crud.set_key k v l)) -> k0 = k \/ In k0 (map fst l)).
    { clear; induction l as [|[k1 v1] l IHl]; simpl; [intros [H|[]]; left; congruence|].
      destruct (String.eqb k k1); simpl; [tauto|].
      intros [H|H]; [tauto|]; destruct (IHl H); tauto. }
    destruct (Hkeys r Hin); [congruence | assumption].
Qed.

(** The update document of a plain partial mapping is accepted. *)
Lemma update_accepted_item (sp : Crud.store_paths) (data : Crud.doc) (now : Z) :
  plain_update data = true -> NoDup (map fst data) ->
  update_accepted sp (Crud.set_key "updated_at" (Crud.VTime now) data) = true.
Proof.
  intros Hp Hnd; apply update_accepted_plain.
  - apply plain_update_set_key; [reflexivity | reflexivity | exact Hp].
  - apply set_key_keys_nodup, Hnd.
Qed.

(** C9 (as stated, refuted): for an id that no document has, an update
    document the store cannot parse (an empty field name, or "updated_at.x"
    next to the "updated_at" the code adds) or the driver cannot encode (an
    integer of 64 bits or more) makes [update_item] fail with a store error
    (HTTP 500), not [NotFoundError]: the store rejects it before it looks
    for the document. *)
Lemma missing_id_update_store_error :
  Crud.to_oid oid3_text = Crud.Ok oid3
  /\ Crud.find_one two_profiles oid3 = None
  /\ (forall sp, Crud.update_item sp two_profiles oid3_text [("", Crud.VInt 1)] 7%Z
                 = (two_profiles, Crud.Err Crud.StoreError))
  /\ (forall sp, Crud.update_item sp two_profiles oid3_text [("updated_at.x", Crud.VInt 1)] 7%Z
                 = (two_profiles, Crud.Err Crud.StoreError))
  /\ (forall sp, Crud.update_item sp two_profiles oid3_text [("n", Crud.VInt (2 ^ 63))] 7%Z
                 = (two_profiles, Crud.Err Crud.StoreError)).
Proof.
  split; [reflexivity|]. split; [reflexivity|].
  split; [|split]; intros sp; reflexivity.
Qed.

(** C9, amended: for a well-formed id that no document has, [delete_item]
    fails with [NotFoundError] (HTTP 404); [update_item] fails with
    [NotFoundError] when the store accepts the update document, as it does
    for a mapping of plain field names to encodable values, and with a
    store error otherwise; with the store's distinct identifiers, deleting
    an id twice fails the second time with [NotFoundError]. *)
Theorem missing_id_not_found (sp : Crud.store_paths) (col : list Crud.doc) (id_str : string)
    (oid : list Z) (data : Crud.doc) (now : Z) :
  Crud.to_oid id_str = Crud.Ok oid ->
  (Crud.find_one col oid = None ->
     Crud.update_item sp col id_str data now
     = (col, Crud.Err (if update_accepted sp (Crud.set_key "updated_at" (Crud.VTime now) data)
                       then Crud.NotFoundError else Crud.StoreError))
     /\ (plain_update data = true -> NoDup (map fst data) ->
           Crud.update_item sp col id_str data now = (col, Crud.Err Crud.NotFoundError))
     /\ Crud.delete_item col id_str = (col, Crud.Err Crud.NotFoundError))
  /\ (forall col', NoDup (map Crud.doc_id col) ->
        Crud.delete_item col id_str = (col', Crud.Ok tt) ->
        Crud.delete_item col' id_str = (col', Crud.Err Crud.NotFoundError)).
Proof.
  intros Hoid; split.
  - intros Hnone.
    assert (Hu : Crud.update_item sp col id_str data now
                 = (col, Crud.Err (if update_accepted sp (Crud.set_key "updated_at" (Crud.VTime now) data)
                                   then Crud.NotFoundError else Crud.StoreError))).
    { unfold Crud.update_item; rewrite Hoid, update_one_no_match by exact Hnone.
      destruct (update_accepted _ _); reflexivity. }
    split; [exact Hu|]. split.
    + intros Hp Hnd; rewrite Hu, update_accepted_item by assumption; reflexivity.
    + unfold Crud.delete_item; rewrite Hoid, delete_one_no_match by exact Hnone; reflexivity.
  - intros col' Hnd Hdel.
    unfold Crud.delete_item in *; rewrite Hoid in *.
    destruct (Crud.delete_one col oid) as [c n] eqn:Ed.
    destruct n as [|n]; [discriminate|].
    injection Hdel as <-.
    rewrite delete_one_no_match; [reflexivity|].
    apply (delete_one_removes col c oid (S n) Hnd Ed); discriminate.
Qed.

(** ** C10 *)

Lemma lookup_set_key (k k' : string) (v : Crud.value) (d : Crud.doc) :
  Crud.lookup k' (Crud.set_key k v d)
  = if String.eqb k' k then Some v else Crud.lookup k' d.
Proof.
  induction d as [|[k0 v0] r IH]; simpl; [reflexivity|].
  destruct (String.eqb_spec k k0) as [->|Hk]; simpl.
  - destruct (String.eqb k' k0); reflexivity.
  - rewrite IH.
    destruct (String.eqb_spec k' k0); destruct (String.eqb_spec k' k); congruence.
Qed.

Lemma lookup_notin (k : string) (d : Crud.doc) :
  ~ In k (map fst d) -> Crud.lookup k d = None.
Proof.
  induction d as [|[k0 v0] r IH]; simpl; intros H; [reflexivity|].
  destruct (String.eqb_spec k k0); [exfalso; apply H; left; congruence|].
  apply IH; intros Hin; apply H; right; exact Hin.
Qed.

Lemma lookup_map_stored (k : string) (d : Crud.doc) :
  Crud.lookup k (map (fun kv => (fst kv, stored (snd kv))) d) = option_map stored (Crud.lookup k d).
Proof.
  induction d as [|[k0 v0] r IH]; simpl; [reflexivity|].
  destruct (String.eqb k k0); [reflexivity | exact IH].
Qed.

Lemma set_field_plain (sp : Crud.store_paths) (d : Crud.doc) (k : string) (v : Crud.value) :
  plain_name k = true -> k <> "_id" ->
  Crud.set_field sp d (k, v) = Some (Crud.set_key k v d).
Proof.
  intros Hk Hid; unfold Crud.set_field; rewrite (path_plain k Hk), (plain_not_dollar k Hk).
  destruct (String.eqb_spec k "_id"); [congruence | reflexivity].
Qed.

Lemma apply_set_lookup (sp : Crud.store_paths) (upd d : Crud.doc) :
  forallb (fun kv => plain_name (fst kv)) upd = true ->
  NoDup (map fst upd) -> Crud.lookup "_id" upd = None ->
  exists d', Crud.apply_set sp d upd = Some d'
    /\ forall k, Crud.lookup k d'
                 = match Crud.lookup k upd with Some v => Some v | None => Crud.lookup k d end.
Proof.
  revert d; induction upd as [|[k v] r IH]; intros d Hp Hnd Hid.
  - exists d; split; reflexivity.
  - cbn [map fst] in Hnd; apply NoDup_cons_iff in Hnd as [Hn Hnd].
    simpl in Hp; apply andb_true_iff in Hp as [Hk Hp].
    change ((if String.eqb "_id" k then Some v else Crud.lookup "_id" r) = None) in Hid.
    revert Hid; destruct (String.eqb_spec "_id" k) as [Hk'|Hk']; intros Hid; [discriminate|].
    cbn [Crud.apply_set].
    rewrite (set_field_plain sp d k v Hk) by congruence.
    destruct (IH (Crud.set_key k v d) Hp Hnd Hid) as (d' & Ha & Hl).
    exists d'; split; [exact Ha|]; intros k'.
    rewrite Hl, lookup_set_key.
    change (Crud.lookup k' ((k, v) :: r))
      with (if String.eqb k' k then Some v else Crud.lookup k' r).
    destruct (String.eqb_spec k' k) as [->|]; [|reflexivity].
    rewrite lookup_notin by exact Hn; reflexivity.
Qed.

Lemma update_first_found (sp : Crud.store_paths) (col : list Crud.doc) (oid : list Z)
    (upd : Crud.doc) (d d' : Crud.doc) :
  Crud.find_one col oid = Some d -> Crud.apply_set sp d upd = Some d' ->
  exists pre post, col = pre ++ d :: post
    /\ Forall (fun x => Crud.matches_oid oid x = false) pre
    /\ Crud.update_first sp col oid upd = Crud.Ok (pre ++ d' :: post, 1).
Proof.
  unfold Crud.find_one; induction col as [|x r IH]; simpl; intros Hf Ha; [discriminate|].
  destruct (Crud.matches_oid oid x) eqn:E.
  - injection Hf as ->; rewrite Ha; exists [], r; repeat split; constructor.
  - destruct (IH Hf Ha) as (pre & post & -> & Hpre & Hu).
    rewrite Hu; exists (x :: pre), post; repeat split; constructor; assumption.
Qed.

Lemma find_one_after (pre post : list Crud.doc) (oid : list Z) (d : Crud.doc) :
  Forall (fun x => Crud.matches_oid oid x = false) pre -> Crud.matches_oid oid d = true ->
  Crud.find_one (pre ++ d :: post) oid = Some d.
Proof.
  unfold Crud.find_one; induction pre as [|x pre IH]; simpl; intros Hpre Hd.
  - rewrite Hd; reflexivity.
  - apply Forall_cons_iff in Hpre as [Hx Hpre]; rewrite Hx; apply IH; assumption.
Qed.



(** ** Instances of the theorems on concrete inputs *)

Lemma invalid_id_fails_fast_witness :
  Crud.update_item paths_rejected two_profiles "not-an-id" [] 3%Z
    = (two_profiles, Crud.Err Crud.InvalidIdError)
  /\ Crud.delete_item two_profiles "not-an-id" = (two_profiles, Crud.Err Crud.InvalidIdError).
Proof.
  apply (invalid_id_fails_fast paths_rejected two_profiles "not-an-id" [] 3%Z).
  intros oid H; vm_compute in H; discriminate H.
Defined.

Lemma missing_id_not_found_witness :
  let col' := fst (Crud.delete_item two_profiles oid1_text) in
  Crud.delete_item two_profiles oid1_text = (col', Crud.Ok tt)
  /\ Crud.delete_item col' oid1_text = (col', Crud.Err Crud.NotFoundError)
  /\ Crud.update_item paths_rejected col' oid1_text [("name", Crud.VStr "Lee")] 3%Z
     = (col', Crud.Err Crud.NotFoundError).
Proof.
  intros col'.
  assert (Hnd : NoDup (map Crud.doc_id two_profiles)).
  { vm_compute; constructor; [simpl; intros [H|[]]; discriminate H|].
    constructor; [simpl; tauto | constructor]. }
  assert (Hdel : Crud.delete_item two_profiles oid1_text = (col', Crud.Ok tt))
    by reflexivity.
  split; [exact Hdel|].
  split.
  - exact (proj2 (missing_id_not_found paths_rejected two_profiles oid1_text oid1 []
                    3%Z eq_refl) col' Hnd Hdel).
  - destruct (missing_id_not_found paths_rejected col' oid1_text oid1 [("name", Crud.VStr "Lee")]
                3%Z eq_refl) as [Hm _].
    destruct (Hm eq_refl) as (_ & Hp & _).
    apply Hp; [reflexivity | constructor; [simpl; tauto | constructor]].
Defined.


(* ------------------------------------------------------------------ *)
(** * Further properties of the code *)

(** ** [as_serializable] *)

Lemma set_key_middle (k : string) (w v : Crud.value) (a r : Crud.doc) :
  ~ In k (map fst a) -> Crud.set_key k w (a ++ (k, v) :: r) = a ++ (k, w) :: r.
Proof.
  induction a as [|[k0 v0] a IH]; simpl; intros Hn.
  - rewrite String.eqb_refl; reflexivity.
  - destruct (String.eqb_spec k k0); [exfalso; apply Hn; left; congruence|].
    rewrite IH by tauto; reflexivity.
Qed.

Lemma map_fst_conv_time (d : Crud.doc) : map fst (map conv_time d) = map fst d.
Proof.
  induction d as [|[k v] r IH]; simpl; [reflexivity|].
  destruct v; simpl; rewrite IH; reflexivity.
Qed.

Lemma convert_times_gen (pre l : Crud.doc) :
  NoDup (map fst (pre ++ l)) ->
  fold_left (fun acc '(k, v) =>
               match v with
               | Crud.VTime t => Crud.set_key k (Crud.VStr (Serialize.isoformat "T" t)) acc
               | _ => acc
               end) l (map conv_time pre ++ l)
  = map conv_time (pre ++ l).
Proof.
  revert pre; induction l as [|[k v] r IH]; intros pre Hnd; simpl.
  - rewrite !app_nil_r; reflexivity.
  - assert (Hk : ~ In k (map fst (map conv_time pre))).
    { rewrite map_fst_conv_time, map_app in *; simpl in Hnd.
      apply NoDup_remove_2 in Hnd; intros H; apply Hnd, in_or_app; left; exact H. }
    assert (Hnd' : NoDup (map fst ((pre ++ [(k, v)]) ++ r))) by (rewrite <- app_assoc; exact Hnd).
    replace (pre ++ (k, v) :: r) with ((pre ++ [(k, v)]) ++ r)
      by (rewrite <- app_assoc; reflexivity).
    rewrite <- (IH (pre ++ [(k, v)]) Hnd'), map_app, <- app_assoc.
    f_equal.
    destruct v; simpl; try reflexivity.
    rewrite set_key_middle by exact Hk; reflexivity.
Qed.

Lemma convert_times_map (d : Crud.doc) :
  NoDup (map fst d) -> Serialize.convert_times d = map conv_time d.
Proof. intros H; apply (convert_times_gen [] d H). Qed.

Lemma remove_key_keys (k : string) (d : Crud.doc) :
  NoDup (map fst d) ->
  NoDup (map fst (Serialize.remove_key k d)) /\ ~ In k (map fst (Serialize.remove_key k d))
  /\ (forall k', k' <> k -> Crud.lookup k' (Serialize.remove_key k d) = Crud.lookup k' d).
Proof.
  induction d as [|[k0 v0] r IH]; simpl; intros Hnd.
  - split; [constructor|]; split; [tauto|]; reflexivity.
  - apply NoDup_cons_iff in Hnd as [Hn Hnd].
    destruct (String.eqb_spec k k0) as [<-|Hk].
    + split; [exact Hnd|]; split; [exact Hn|].
      intros k' Hk'; apply String.eqb_neq in Hk'; rewrite Hk'; reflexivity.
    + destruct (IH Hnd) as (H1 & H2 & H3); simpl.
      split; [|split].
      * constructor; [|exact H1].
        intros Hin; apply Hn.
        clear -Hin; induction r as [|[k1 v1] r IHr]; simpl in *; [exact Hin|].
        destruct (String.eqb k k1); simpl in *; tauto.
      * intros [E|E]; [congruence | exact (H2 E)].
      * intros k' Hk'; rewrite H3 by exact Hk'; reflexivity.
Qed.

Lemma lookup_map_conv (k : string) (d : Crud.doc) :
  Crud.lookup k (map conv_time d) = option_map (fun v => snd (conv_time (k, v))) (Crud.lookup k d).
Proof.
  induction d as [|[k0 v0] r IH]; simpl; [reflexivity|].
  destruct v0; simpl; destruct (String.eqb k k0) eqn:E; try exact IH;
    apply String.eqb_eq in E; subst; reflexivity.
Qed.

(** The serialised form of a stored document with an [ObjectId]. *)
Lemma as_serializable_oid_form (d : Crud.doc) (b : list Z) :
  NoDup (map fst d) -> Crud.lookup "_id" d = Some (Crud.VOid b) ->
  Serialize.as_serializable d
  = map conv_time (Crud.set_key "id" (Crud.VStr (Serialize.hexlify b)) (Serialize.remove_key "_id" d))
  /\ NoDup (map fst (Crud.set_key "id" (Crud.VStr (Serialize.hexlify b)) (Serialize.remove_key "_id" d))).
Proof.
  intros Hnd Hid.
  destruct (remove_key_keys "_id" d Hnd) as (H1 & _ & _).
  assert (Hn : NoDup (map fst (Crud.set_key "id" (Crud.VStr (Serialize.hexlify b))
                                 (Serialize.remove_key "_id" d))))
    by (apply set_key_keys_nodup, H1).
  split; [|exact Hn].
  destruct d as [|kv d']; [discriminate|].
  unfold Serialize.as_serializable; rewrite Hid; simpl Serialize.truthy; cbv iota.
  apply convert_times_map, Hn.
Qed.

Lemma oid_doc_serialized (d : Crud.doc) (b : list Z) :
  NoDup (map fst d) -> Crud.lookup "_id" d = Some (Crud.VOid b) ->
  let s := Serialize.as_serializable d in
  Crud.lookup "_id" s = None
  /\ Crud.lookup "id" s = Some (Crud.VStr (Serialize.hexlify b))
  /\ (forall k v, In (k, v) s -> is_time v = false)
  /\ (forall k, k <> "_id" -> k <> "id" ->
        Crud.lookup k s = option_map (fun v => snd (conv_time (k, v))) (Crud.lookup k d))
  /\ NoDup (map fst s).
Proof.
  intros Hnd Hid s.
  destruct (as_serializable_oid_form d b Hnd Hid) as (Hs & Hn).
  destruct (remove_key_keys "_id" d Hnd) as (_ & H2 & H3).
  subst s; rewrite Hs.
  split; [|split; [|split; [|split]]].
  - rewrite lookup_map_conv, lookup_set_key; simpl.
    rewrite lookup_notin by exact H2; reflexivity.
  - rewrite lookup_map_conv, lookup_set_key; reflexivity.
  - intros k v Hin; apply in_map_iff in Hin as ([k' v'] & E & _).
    destruct v'; simpl in E; injection E as _ <-; reflexivity.
  - intros k Hk1 Hk2; rewrite !lookup_map_conv, lookup_set_key.
    apply String.eqb_neq in Hk2; rewrite Hk2, H3 by exact Hk1; reflexivity.
  - rewrite map_fst_conv_time; exact Hn.
Qed.


(** X: [as_serializable] of a stored document whose [_id] is an ObjectId:
    [_id] is gone, [id] holds its hex text, no [datetime] value is left,
    every other field keeps its value (a [datetime] turned into its ISO
    text), and the keys stay distinct. *)
Theorem as_serializable_objectid (d : Crud.doc) (b : list Z) :
  NoDup (map fst d) -> Crud.lookup "_id" d = Some (Crud.VOid b) ->
  let s := Serialize.as_serializable d in
  Crud.lookup "_id" s = None
  /\ Crud.lookup "id" s = Some (Crud.VStr (Serialize.hexlify b))
  /\ (forall k v, In (k, v) s -> is_time v = false)
  /\ (forall k, k <> "_id" -> k <> "id" ->
        Crud.lookup k s = option_map (fun v => snd (conv_time (k, v))) (Crud.lookup k d))
  /\ NoDup (map fst s).
Proof. apply oid_doc_serialized. Qed.

(** ** ObjectId text *)

Lemma hex_digit_val (n : Z) :
  (0 <= n < 16)%Z ->
  Crud.hex_val (Serialize.hex_digit n) = Some n /\ Crud.ascii_space (Serialize.hex_digit n) = false.
Proof.
  intros Hn.
  rewrite <- (Z2Nat.id n) by lia.
  assert (Hk : (Z.to_nat n < 16)%nat) by lia.
  generalize (Z.to_nat n) Hk; clear; intros k Hk.
  do 16 (destruct k as [|k]; [split; reflexivity|]); lia.
Qed.

Lemma fromhex_hexlify (bs : list Z) :
  Forall (fun x => 0 <= x < 256)%Z bs -> Crud.fromhex (Serialize.hexlify bs) = Some bs.
Proof.
  induction bs as [|x r IH]; intros Hf; [reflexivity|].
  apply Forall_cons_iff in Hf as [Hx Hr].
  pose proof (Z.div_mod x 16 ltac:(lia)) as Hdm; pose proof (Z.mod_pos_bound x 16 ltac:(lia)) as Hmb.
  destruct (hex_digit_val (x / 16)) as [Hv1 Hs1]; [lia|].
  destruct (hex_digit_val (x mod 16)) as [Hv2 _]; [lia|].
  cbn [Serialize.hexlify Crud.fromhex]; rewrite Hs1, Hv1, Hv2, (IH Hr).
  do 2 f_equal; lia.
Qed.

Lemma hexlify_length (bs : list Z) : String.length (Serialize.hexlify bs) = 2 * length bs.
Proof. induction bs as [|x r IH]; simpl; [reflexivity | rewrite IH; lia]. Qed.

(** X: the [id] text that [as_serializable] gives a stored document (its
    [_id] an ObjectId of 12 bytes) is accepted by [to_oid] and designates
    the same ObjectId, so the document can be addressed by it in
    [update_item] and [delete_item]. *)
Theorem serialized_id_round_trip (d : Crud.doc) (b : list Z) :
  NoDup (map fst d) -> Crud.lookup "_id" d = Some (Crud.VOid b) ->
  length b = 12 -> Forall (fun x => 0 <= x < 256)%Z b ->
  exists s, Crud.lookup "id" (Serialize.as_serializable d) = Some (Crud.VStr s)
            /\ Crud.to_oid s = Crud.Ok b.
Proof.
  intros Hnd Hid Hl Hb.
  destruct (oid_doc_serialized d b Hnd Hid) as (_ & Hs & _).
  exists (Serialize.hexlify b); split; [exact Hs|].
  unfold Crud.to_oid; rewrite hexlify_length, Hl; simpl.
  rewrite fromhex_hexlify by exact Hb; reflexivity.
Qed.

Lemma conv_time_idem (kv : string * Crud.value) : conv_time (conv_time kv) = conv_time kv.
Proof. destruct kv as [k v]; destruct v; reflexivity. Qed.

Lemma as_serializable_conv (e : Crud.doc) :
  NoDup (map fst e) ->
  (forall v, Crud.lookup "_id" e = Some v -> Serialize.truthy v = false) ->
  Serialize.as_serializable (map conv_time e) = map conv_time e.
Proof.
  intros Hnd Hf.
  assert (Hc : Serialize.convert_times (map conv_time e) = map conv_time e).
  { rewrite convert_times_map by (rewrite map_fst_conv_time; exact Hnd).
    rewrite map_map; apply map_ext; apply conv_time_idem. }
  remember (map conv_time e) as m eqn:Em.
  destruct m as [|x m']; [reflexivity|].
  unfold Serialize.as_serializable; cbv iota; rewrite Em in *.
  rewrite lookup_map_conv.
  destruct (Crud.lookup "_id" e) as [v|] eqn:E; [|exact Hc].
  specialize (Hf v eq_refl).
  destruct v; cbn [option_map conv_time snd]; try (rewrite Hf; exact Hc); discriminate Hf.
Qed.

Lemma as_serializable_inner (d : Crud.doc) :
  NoDup (map fst d) ->
  exists e, Serialize.as_serializable d = map conv_time e /\ NoDup (map fst e)
            /\ (forall v, Crud.lookup "_id" e = Some v -> Serialize.truthy v = false).
Proof.
  intros Hnd.
  destruct d as [|kv r]; [exists []; split; [reflexivity|split; [constructor|discriminate]]|].
  unfold Serialize.as_serializable; cbv iota.
  destruct (Crud.lookup "_id" (kv :: r)) as [v|] eqn:E;
    [destruct (Serialize.truthy v) eqn:T|].
  - destruct (remove_key_keys "_id" (kv :: r) Hnd) as (H1 & H2 & _).
    set (e := Crud.set_key "id" (Crud.VStr (Serialize.py_str v)) (Serialize.remove_key "_id" (kv :: r))).
    assert (He : NoDup (map fst e)) by (apply set_key_keys_nodup, H1).
    exists e; split; [apply convert_times_map, He|split; [exact He|]].
    intros w; subst e; rewrite lookup_set_key; simpl.
    rewrite lookup_notin by exact H2; discriminate.
  - exists (kv :: r); split; [apply convert_times_map, Hnd|split; [exact Hnd|]].
    rewrite E; intros w Hw; injection Hw as <-; exact T.
  - exists (kv :: r); split; [apply convert_times_map, Hnd|split; [exact Hnd|]].
    rewrite E; discriminate.
Qed.

(** X: [as_serializable] is idempotent on documents with distinct keys: a
    document already serialised is returned unchanged. *)
Theorem as_serializable_idempotent (d : Crud.doc) :
  NoDup (map fst d) ->
  Serialize.as_serializable (Serialize.as_serializable d) = Serialize.as_serializable d.
Proof.
  intros Hnd.
  destruct (as_serializable_inner d Hnd) as (e & He & Hn & Hf).
  rewrite He; apply as_serializable_conv; assumption.
Qed.

(** ** The score and [ai_query] without a database *)

Lemma filter_length_all {A} (f : A -> bool) (l : list A) :
  length (filter f l) = length l <-> Forall (fun x => f x = true) l.
Proof.
  induction l as [|x r IH]; simpl; [split; [constructor | reflexivity]|].
  pose proof (filter_length_le f r) as Hle.
  destruct (f x) eqn:E; simpl.
  - rewrite Forall_cons_iff; split; [intros H; split; [exact E | apply IH; lia]|].
    intros [_ H]; apply IH in H; lia.
  - split; [lia|]; intros H; apply Forall_cons_iff in H as [H _]; congruence.
Qed.

(** X: the score [rank_text] gives a text is at most the number of tokens
    of the question, and reaches it exactly when every token occurs in the
    lower-cased text. *)
Theorem rank_text_bound (q text : string) :
  AI.rank_text q text <= length (Py.split q)
  /\ (AI.rank_text q text = length (Py.split q)
      <-> Forall (fun t => Py.contains t (Py.lower text) = true) (Py.split q)).
Proof.
  rewrite rank_text_count; split; [apply filter_length_le | apply filter_length_all].
Qed.

(** X: without a database, [ai_query] answers (it does not raise), every
    results list it returns is empty and the answer is the empty text,
    whatever the question and focus. *)
Theorem ai_query_without_db (p : AI.AIQuery) :
  exists resp, AI.ai_query None p = Some resp
  /\ (forall rs, AI.r_projects (AI.results resp) = Some rs -> rs = [])
  /\ (forall rs, AI.r_certificates (AI.results resp) = Some rs -> rs = [])
  /\ (forall rs, AI.r_journal (AI.results resp) = Some rs -> rs = [])
  /\ AI.answer resp = "".
Proof.
  rewrite ai_query_no_db; eexists; split; [reflexivity|].
  destruct (AI.focus_in (Spec.focus_key p) [""; "project"; "projects"]),
    (AI.focus_in (Spec.focus_key p) [""; "certificate"; "certificates"]),
    (AI.focus_in (Spec.focus_key p) [""; "journal"]);
    cbn [AI.respond AI.results AI.answer AI.r_projects AI.r_certificates AI.r_journal];
    repeat split; intros rs H; congruence.
Qed.

(** ** [GET /certificates] and [GET /journal] *)

Lemma filter_id_iff {A} (f : A -> bool) (l : list A) :
  filter f l = l <-> Forall (fun x => f x = true) l.
Proof.
  split.
  - intros H; apply filter_length_all; rewrite H; reflexivity.
  - induction l as [|x r IH]; intros Hf; [reflexivity|].
    apply Forall_cons_iff in Hf as [Hx Hr]; simpl; rewrite Hx, IH by exact Hr; reflexivity.
Qed.

(** X: [get_certs] returns the whole collection exactly when [skill] is
    absent or empty, or the store compiles it and every certificate's
    [skill_category] matches it; with a non-empty [skill] it fails exactly
    when the store rejects the pattern, and otherwise returns the matching
    certificates in store order. *)
Theorem get_certs_whole_store (rx : Filter.regex) (store : list Certificate.t)
    (skill : option string) :
  (Filter2.get_certs rx store skill = Some store
   <-> match skill with
       | Some s => Py.truthy s = false
                   \/ exists m, rx s = Some m
                                /\ Forall (fun c => m (Certificate.skill_category c) = true) store
       | None => True
       end)
  /\ (forall s, skill = Some s -> Py.truthy s = true ->
        (Filter2.get_certs rx store skill = None <-> rx s = None)
        /\ (forall m, rx s = Some m ->
              Filter2.get_certs rx store skill
              = Some (filter (fun c => m (Certificate.skill_category c)) store))).
Proof.
  split.
  - unfold Filter2.get_certs; destruct skill as [s|]; [|tauto].
    destruct (Py.truthy s); [|tauto].
    destruct (rx s) as [m|].
    + split.
      * intros H; injection H as H; right; exists m; split; [reflexivity|].
        apply filter_id_iff, H.
      * intros [H|(m' & Hm & Hf)]; [discriminate H|].
        injection Hm as <-; f_equal; apply filter_id_iff, Hf.
    + split; [discriminate|]. intros [H|(m' & Hm & _)]; discriminate.
  - intros s -> Hs; unfold Filter2.get_certs; rewrite Hs.
    split; [destruct (rx s); split; congruence|].
    intros m Hm; rewrite Hm; reflexivity.
Qed.

(** X: [get_journal] returns the whole collection exactly when [tag] is
    absent or empty, or the store compiles it and every entry has a tag
    that matches it; with a non-empty [tag] it fails exactly when the store
    rejects the pattern, and otherwise returns the entries with a matching
    tag, in store order. *)
Theorem get_journal_whole_store (rx : Filter.regex) (store : list JournalEntry.t)
    (tag : option string) :
  (Filter2.get_journal rx store tag = Some store
   <-> match tag with
       | Some t => Py.truthy t = false
                   \/ exists m, rx t = Some m
                                /\ Forall (fun j => exists g, In g (JournalEntry.tags j)
                                                              /\ m g = true) store
       | None => True
       end)
  /\ (forall t, tag = Some t -> Py.truthy t = true ->
        (Filter2.get_journal rx store tag = None <-> rx t = None)
        /\ (forall m, rx t = Some m ->
              Filter2.get_journal rx store tag
              = Some (filter (fun j => existsb m (JournalEntry.tags j)) store))).
Proof.
  split.
  - unfold Filter2.get_journal; destruct tag as [t|]; [|tauto].
    destruct (Py.truthy t); [|tauto].
    destruct (rx t) as [m|].
    + assert (Hf : Forall (fun j => existsb m (JournalEntry.tags j) = true) store
                   <-> Forall (fun j => exists g, In g (JournalEntry.tags j) /\ m g = true) store).
      { split; apply Forall_impl; intros j; rewrite existsb_exists; tauto. }
      split.
      * intros H; injection H as H; right; exists m; split; [reflexivity|].
        apply Hf, filter_id_iff, H.
      * intros [H|(m' & Hm & Hall)]; [discriminate H|].
        injection Hm as <-; f_equal; apply filter_id_iff, Hf, Hall.
    + split; [discriminate|]. intros [H|(m' & Hm & _)]; discriminate.
  - intros t -> Ht; unfold Filter2.get_journal; rewrite Ht.
    split; [destruct (rx t); split; congruence|].
    intros m Hm; rewrite Hm; reflexivity.
Qed.

(** ** The store effects of [update_item] and [delete_item] *)

Lemma set_field_doc_id (sp : Crud.store_paths) (d d' : Crud.doc) (kv : string * Crud.value) :
  Crud.set_field sp d kv = Some d' -> Crud.doc_id d' = Crud.doc_id d.
Proof.
  destruct kv as [k v]; unfold Crud.set_field.
  destruct (Crud.path k) as [|top [|x rest]]; [discriminate| |].
  - destruct (Py.startswith k "$"); [apply Crud.path_set_id|].
    destruct (String.eqb_spec k "_id") as [->|Hk].
    + destruct (Crud.doc_id d) as [v0|] eqn:E0; [|discriminate].
      destruct (Crud.value_eq_dec v v0); [intros H; injection H as <-; exact E0 | discriminate].
    + intros H; injection H as <-; unfold Crud.doc_id; rewrite lookup_set_key.
      destruct (String.eqb_spec "_id" k); [congruence | reflexivity].
  - destruct (Crud.lookup top d) as [w|]; [destruct (Crud.scalar w); [discriminate|]|];
      apply Crud.path_set_id.
Qed.

Lemma apply_set_doc_id (sp : Crud.store_paths) (upd d d' : Crud.doc) :
  Crud.apply_set sp d upd = Some d' -> Crud.doc_id d' = Crud.doc_id d.
Proof.
  revert d; induction upd as [|kv r IH]; intros d; simpl.
  - intros H; injection H as <-; reflexivity.
  - destruct (Crud.set_field sp d kv) as [d1|] eqn:E; [|discriminate].
    intros H; rewrite (IH d1 H); apply (set_field_doc_id sp d d1 kv E).
Qed.

Lemma update_first_ids (sp : Crud.store_paths) (col col' : list Crud.doc) (oid : list Z)
    (upd : Crud.doc) (n : nat) :
  Crud.update_first sp col oid upd = Crud.Ok (col', n) ->
  map Crud.doc_id col' = map Crud.doc_id col /\ (n = 0 -> col' = col).
Proof.
  revert col' n; induction col as [|d r IH]; intros col' n; simpl.
  - intros H; injection H as <- <-; split; reflexivity.
  - destruct (Crud.matches_oid oid d).
    + destruct (Crud.apply_set sp d upd) as [d'|] eqn:E; [|discriminate].
      intros H; injection H as <- <-; simpl; rewrite (apply_set_doc_id sp upd d d' E).
      split; [reflexivity | discriminate].
    + destruct (Crud.update_first sp r oid upd) as [[r' m]|e] eqn:E; [|discriminate].
      intros H; injection H as <- <-; destruct (IH r' m eq_refl) as [H1 H2].
      simpl; rewrite H1; split; [reflexivity | intros Hm; rewrite (H2 Hm); reflexivity].
Qed.

Lemma update_one_ids (sp : Crud.store_paths) (col col' : list Crud.doc) (oid : list Z)
    (upd : Crud.doc) (n : nat) :
  Crud.update_one sp col oid upd = Crud.Ok (col', n) ->
  map Crud.doc_id col' = map Crud.doc_id col /\ (n = 0 -> col' = col).
Proof.
  unfold Crud.update_one.
  destruct (Crud.encode_doc upd) as [u|]; [|discriminate].
  destruct (Crud.update_parses sp u); [apply update_first_ids | discriminate].
Qed.

(** X: [update_item] never changes a document's [_id], nor the number or
    order of the documents: whatever the outcome, the identifiers of the
    collection afterwards are those before, in the same order; and when it
    fails (invalid id, not found, store error) the collection is unchanged. *)
Theorem update_item_keeps_ids (sp : Crud.store_paths) (col col' : list Crud.doc)
    (id_str : string) (data : Crud.doc) (now : Z) (r : Crud.result (option Crud.doc)) :
  Crud.update_item sp col id_str data now = (col', r) ->
  map Crud.doc_id col' = map Crud.doc_id col
  /\ (forall e, r = Crud.Err e -> col' = col).
Proof.
  unfold Crud.update_item.
  destruct (Crud.to_oid id_str) as [oid|e]; [|intros H; injection H as <- <-; split; reflexivity].
  destruct (Crud.update_one sp col oid (Crud.set_key "updated_at" (Crud.VTime now) data))
    as [[c n]|e] eqn:Eu; [|intros H; injection H as <- <-; split; reflexivity].
  destruct (update_one_ids sp col c oid _ n Eu) as [Hids Hn0].
  destruct n as [|n].
  - intros H; injection H as <- <-; split; [exact Hids | intros; apply Hn0; reflexivity].
  - intros H; injection H as <- <-; split; [exact Hids | intros e He; discriminate He].
Qed.

Lemma delete_one_cases (col col' : list Crud.doc) (oid : list Z) (n : nat) :
  Crud.delete_one col oid = (col', n) ->
  (n = 0 /\ col' = col)
  \/ (n = 1 /\ exists pre d post, col = pre ++ d :: post /\ col' = pre ++ post
        /\ Crud.matches_oid oid d = true
        /\ Forall (fun x => Crud.matches_oid oid x = false) pre).
Proof.
  revert col' n; induction col as [|d r IH]; intros col' n; simpl.
  - intros H; injection H as <- <-; left; split; reflexivity.
  - destruct (Crud.matches_oid oid d) eqn:Ed.
    + intros H; injection H as <- <-; right; split; [reflexivity|].
      exists [], d, r; repeat split; [exact Ed | constructor].
    + destruct (Crud.delete_one r oid) as [r' m] eqn:E.
      intros H; injection H as <- <-.
      destruct (IH r' m eq_refl) as [[-> ->] | [-> (pre & x & post & -> & -> & Hx & Hpre)]].
      * left; split; reflexivity.
      * right; split; [reflexivity|].
        exists (d :: pre), x, post; repeat split; [exact Hx | constructor; assumption].
Qed.

(** X: [delete_item] either removes exactly one document, the first (in
    store order) whose [_id] is the ObjectId of [id_str], leaving the others
    in order, and reports success; or it fails and leaves the collection
    unchanged. *)
Theorem delete_item_effect (col col' : list Crud.doc) (id_str : string)
    (r : Crud.result unit) :
  Crud.delete_item col id_str = (col', r) ->
  (r = Crud.Ok tt ->
     exists oid pre d post, Crud.to_oid id_str = Crud.Ok oid
       /\ col = pre ++ d :: post /\ col' = pre ++ post
       /\ Crud.doc_id d = Some (Crud.VOid oid)
       /\ Forall (fun x => Crud.doc_id x <> Some (Crud.VOid oid)) pre)
  /\ (forall e, r = Crud.Err e -> col' = col).
Proof.
  unfold Crud.delete_item.
  destruct (Crud.to_oid id_str) as [oid|e] eqn:Eo;
    [|intros H; injection H as <- <-; split; [discriminate | reflexivity]].
  destruct (Crud.delete_one col oid) as [c n] eqn:Ed.
  destruct (delete_one_cases col c oid n Ed) as [[-> ->] | [-> (pre & d & post & -> & -> & Hd & Hpre)]].
  - intros H; injection H as <- <-; split; [discriminate | reflexivity].
  - intros H; injection H as <- <-; split; [|discriminate].
    intros _; exists oid, pre, d, post; repeat split; [apply matches_oid_doc_id, Hd|].
    eapply Forall_impl; [|exact Hpre]; intros x Hx Hc.
    apply matches_oid_doc_id in Hc; congruence.
Qed.

(** ** [to_oid] *)

Lemma hex_val_range (c : ascii) (h : Z) : Crud.hex_val c = Some h -> (0 <= h < 16)%Z.
Proof.
  unfold Crud.hex_val.
  destruct ((48 <=? nat_of_ascii c) && (nat_of_ascii c <=? 57))%nat eqn:E1.
  { intros H; injection H as <-; apply andb_prop in E1 as [E1 E2].
    apply Nat.leb_le in E1, E2; lia. }
  destruct ((97 <=? nat_of_ascii c) && (nat_of_ascii c <=? 102))%nat eqn:E2.
  { intros H; injection H as <-; apply andb_prop in E2 as [E2 E3].
    apply Nat.leb_le in E2, E3; lia. }
  destruct ((65 <=? nat_of_ascii c) && (nat_of_ascii c <=? 70))%nat eqn:E3; [|discriminate].
  intros H; injection H as <-; apply andb_prop in E3 as [E3 E4].
  apply Nat.leb_le in E3, E4; lia.
Qed.

Lemma fromhex_bytes (n : nat) (s : string) (b : list Z) :
  String.length s <= n -> Crud.fromhex s = Some b ->
  Forall (fun x => 0 <= x < 256)%Z b /\ 2 * length b <= String.length s.
Proof.
  revert s b; induction n as [|n IH]; intros s b Hn Hf.
  - destruct s; [|simpl in Hn; lia].
    injection Hf as <-; split; [constructor | simpl; lia].
  - destruct s as [|c r]; [injection Hf as <-; split; [constructor | simpl; lia]|].
    cbn [Crud.fromhex] in Hf; cbn [String.length] in Hn |- *.
    destruct (Crud.ascii_space c).
    + destruct (IH r b ltac:(lia) Hf) as [H1 H2]; split; [exact H1 | lia].
    + destruct r as [|c2 r']; [discriminate|].
      destruct (Crud.hex_val c) as [h|] eqn:Eh; [|discriminate].
      destruct (Crud.hex_val c2) as [l|] eqn:El; [|discriminate].
      destruct (Crud.fromhex r') as [bs|] eqn:Er; [|discriminate].
      injection Hf as <-; cbn [String.length] in Hn |- *.
      destruct (IH r' bs ltac:(lia) Er) as [H1 H2].
      apply hex_val_range in Eh, El.
      split; [constructor; [assert (Hb : (0 <= 16 * h + l < 256)%Z) by lia; exact Hb | exact H1] | cbn [length]; lia].
Qed.

(** X: an id that [to_oid] accepts is a text of 24 characters, and the
    ObjectId it gives has at most 12 bytes, each in 0..255. *)
Theorem to_oid_accepts (id_str : string) (b : list Z) :
  Crud.to_oid id_str = Crud.Ok b ->
  String.length id_str = 24 /\ Forall (fun x => 0 <= x < 256)%Z b /\ length b <= 12.
Proof.
  unfold Crud.to_oid.
  destruct (Nat.eqb_spec (String.length id_str) 24) as [Hl|]; [|discriminate].
  destruct (Crud.fromhex id_str) as [b'|] eqn:E; [|discriminate].
  intros H; injection H as <-.
  destruct (fromhex_bytes _ id_str b' (le_n _) E) as [H1 H2].
  split; [exact Hl | split; [exact H1 | lia]].
Qed.

(** ** [GET /test] *)

(** X: the [/test] report says "Connected" exactly when a database is
    configured; it lists at most 20 collections, each one a name the
    database listed; and [database] reads "✅ Connected & Working" exactly
    when the database listed its collections without error. *)
Theorem test_database_report (db : option TestDb.Handle) (env_url : option string) :
  let r := TestDb.test_database db env_url in
  (TestDb.connection_status r = "Connected" <-> db <> None)
  /\ length (TestDb.collections r) <= 20
  /\ (forall c, In c (TestDb.collections r) ->
        exists h names, db = Some h /\ TestDb.listing h = inl names /\ In c names)
  /\ (TestDb.database r = "✅ Connected & Working"
      <-> exists h names, db = Some h /\ TestDb.listing h = inl names).
Proof.
  intros r; subst r; destruct db as [h|].
  - unfold TestDb.test_database.
    destruct (TestDb.listing h) as [names|msg] eqn:El; cbn [TestDb.connection_status
      TestDb.collections TestDb.database].
    + split; [split; [intros _; discriminate | reflexivity]|].
      split; [apply firstn_le_length|].
      split; [intros c Hc; exists h, names; repeat split; [exact El | rewrite <- (firstn_skipn 20 names); apply in_or_app; left; exact Hc]|].
      split; [intros _; exists h, names; split; [reflexivity | exact El] | reflexivity].
    + split; [split; [intros _; discriminate | reflexivity]|].
      split; [cbn; lia|]; split; [intros c []|].
      split; [intros H; discriminate H|].
      intros (h' & names & E & Eh); injection E as <-; congruence.
  - cbn; split; [split; [discriminate | intros H; exfalso; apply H; reflexivity]|].
    split; [lia|]; split; [intros c []|].
    split; [discriminate | intros (h & names & E & _); discriminate E].
Qed.

(** ** [update_item] and the serialised answer *)

Lemma set_field_nodup (sp : Crud.store_paths) (d d' : Crud.doc) (kv : string * Crud.value) :
  plain_name (fst kv) = true ->
  NoDup (map fst d) -> Crud.set_field sp d kv = Some d' -> NoDup (map fst d').
Proof.
  destruct kv as [k v]; simpl; intros Hk Hnd; unfold Crud.set_field.
  rewrite (path_plain k Hk), (plain_not_dollar k Hk).
  destruct (String.eqb_spec k "_id").
  - destruct (Crud.doc_id d) as [v0|]; [|discriminate].
    destruct (Crud.value_eq_dec v v0); [intros H; injection H as <-; exact Hnd | discriminate].
  - intros H; injection H as <-; apply set_key_keys_nodup, Hnd.
Qed.

Lemma apply_set_nodup (sp : Crud.store_paths) (upd d d' : Crud.doc) :
  forallb (fun kv => plain_name (fst kv)) upd = true ->
  NoDup (map fst d) -> Crud.apply_set sp d upd = Some d' -> NoDup (map fst d').
Proof.
  revert d; induction upd as [|kv r IH]; intros d Hp Hnd; cbn [Crud.apply_set].
  - intros H; injection H as <-; exact Hnd.
  - simpl in Hp; apply andb_true_iff in Hp as [Hk Hp].
    destruct (Crud.set_field sp d kv) as [d1|] eqn:E; [|discriminate].
    apply (IH d1 Hp), (set_field_nodup sp d d1 kv Hk Hnd E).
Qed.

(** X: a successful [update_item] (well-formed id, a document with that id,
    an update of plain field names other than [_id] to encodable values)
    answers with the updated document as [as_serializable] makes it: [id]
    is the lower-case hex text of the ObjectId (whatever case or spacing
    [id_str] used), there is no [_id], [updated_at] is the ISO text of the
    time of the update as stored (to the millisecond), and no value is a
    [datetime]. *)
Theorem update_item_response (sp : Crud.store_paths) (col : list Crud.doc) (id_str : string)
    (oid : list Z) (data : Crud.doc) (now : Z) (d : Crud.doc) :
  Crud.to_oid id_str = Crud.Ok oid ->
  Crud.find_one col oid = Some d ->
  NoDup (map fst d) -> NoDup (map fst data) -> Crud.lookup "_id" data = None ->
  plain_update data = true ->
  exists col' d', Crud.update_item sp col id_str data now = (col', Crud.Ok (Some d'))
    /\ let s := Serialize.as_serializable d' in
       Crud.lookup "id" s = Some (Crud.VStr (Serialize.hexlify oid))
       /\ Crud.lookup "_id" s = None
       /\ Crud.lookup "updated_at" s
          = Some (Crud.VStr (Serialize.isoformat "T" (now / 1000 * 1000)))
       /\ (forall k v, In (k, v) s -> is_time v = false).
Proof.
  intros Hoid Hfind Hndd Hnd Hid Hp.
  set (upd := Crud.set_key "updated_at" (Crud.VTime now) data).
  assert (Hpu : plain_update upd = true)
    by (apply plain_update_set_key; [reflexivity | reflexivity | exact Hp]).
  assert (Hndu : NoDup (map fst upd)) by apply set_key_keys_nodup, Hnd.
  set (u := map (fun kv => (fst kv, stored (snd kv))) upd).
  assert (He : Crud.encode_doc upd = Some u) by apply encode_plain, Hpu.
  assert (Hpn : forallb (fun kv => plain_name (fst kv)) u = true).
  { unfold u; apply forallb_forall; intros kv Hin;
      apply in_map_iff in Hin as ([k v] & <- & Hin); simpl.
    unfold plain_update in Hpu; rewrite forallb_forall in Hpu.
    specialize (Hpu _ Hin); apply andb_true_iff in Hpu as [Hpu _]; exact Hpu. }
  assert (Hndv : NoDup (map fst u)) by (unfold u; rewrite map_map; exact Hndu).
  assert (Hlu : forall k, Crud.lookup k u = option_map stored (Crud.lookup k upd))
    by (intros k; apply lookup_map_stored).
  assert (Hu_id : Crud.lookup "_id" u = None)
    by (rewrite Hlu; unfold upd; rewrite lookup_set_key; simpl; rewrite Hid; reflexivity).
  destruct (apply_set_lookup sp u d Hpn Hndv Hu_id) as (d' & Ha & Hl).
  destruct (update_first_found sp col oid u d d' Hfind Ha) as (pre & post & Hcol & Hpre & Hu).
  assert (Hdid : Crud.doc_id d = Some (Crud.VOid oid)).
  { apply matches_oid_doc_id.
    unfold Crud.find_one in Hfind; apply find_some in Hfind; apply Hfind. }
  assert (Hd'id : Crud.lookup "_id" d' = Some (Crud.VOid oid))
    by (rewrite Hl, Hu_id; exact Hdid).
  assert (Hmatch : Crud.matches_oid oid d' = true) by (apply matches_oid_doc_id; exact Hd'id).
  exists (pre ++ d' :: post), d'; split.
  { unfold Crud.update_item; rewrite Hoid; unfold Crud.update_one; fold upd; rewrite He.
    rewrite update_parses_plain by assumption.
    rewrite Hu, find_one_after by assumption; reflexivity. }
  pose proof (apply_set_nodup sp u d d' Hpn Hndd Ha) as Hnd'.
  destruct (oid_doc_serialized d' oid Hnd' Hd'id) as (H1 & H2 & H3 & H4 & _).
  split; [exact H2 | split; [exact H1 | split; [|exact H3]]].
  rewrite H4 by discriminate.
  rewrite Hl, Hlu; unfold upd; rewrite lookup_set_key; reflexivity.
Qed.

(** ** Instances of the further properties on concrete inputs *)

Ltac nodup_keys :=
  cbn; repeat constructor; cbn;
  intros H; repeat (destruct H as [H|H]; [discriminate H|]); exact H.

Ltac byte_range :=
  cbn; repeat (apply Forall_cons; [lia|]); apply Forall_nil.

Lemma as_serializable_objectid_witness :
  Crud.lookup "created_at" (Serialize.as_serializable sample_project)
  = Some (Crud.VStr "2024-06-15T12:22:03.456789").
Proof.
  destruct (as_serializable_objectid sample_project oid1 ltac:(nodup_keys) eq_refl)
    as (_ & _ & _ & H & _).
  rewrite (H "created_at") by discriminate; reflexivity.
Defined.

Lemma serialized_id_round_trip_witness :
  Crud.to_oid "000000000000000000000001" = Crud.Ok oid1.
Proof.
  destruct (serialized_id_round_trip sample_project oid1 ltac:(nodup_keys) eq_refl eq_refl
              ltac:(byte_range)) as (s & Hs & Ht).
  vm_compute in Hs; injection Hs as <-; exact Ht.
Defined.

Lemma as_serializable_idempotent_witness :
  Serialize.as_serializable (Serialize.as_serializable sample_falsy_id)
  = Serialize.as_serializable sample_falsy_id.
Proof. apply as_serializable_idempotent; nodup_keys. Defined.

Lemma update_item_keeps_ids_witness :
  snd (Crud.update_item paths_rejected two_profiles oid1_text [("_id", Crud.VOid oid2)] 7%Z)
    = Crud.Err Crud.StoreError
  /\ fst (Crud.update_item paths_rejected two_profiles oid1_text [("_id", Crud.VOid oid2)] 7%Z)
     = two_profiles.
Proof.
  split; [vm_compute; reflexivity|].
  apply (proj2 (update_item_keeps_ids paths_rejected two_profiles
                  (fst (Crud.update_item paths_rejected two_profiles oid1_text
                          [("_id", Crud.VOid oid2)] 7%Z))
                  oid1_text [("_id", Crud.VOid oid2)] 7%Z
                  (snd (Crud.update_item paths_rejected two_profiles oid1_text
                          [("_id", Crud.VOid oid2)] 7%Z))
                  ltac:(vm_compute; reflexivity)) Crud.StoreError).
  vm_compute; reflexivity.
Defined.

Lemma delete_item_effect_witness :
  length (fst (Crud.delete_item two_profiles oid1_text)) = 1.
Proof.
  destruct (proj1 (delete_item_effect two_profiles (fst (Crud.delete_item two_profiles oid1_text))
                     oid1_text (snd (Crud.delete_item two_profiles oid1_text))
                     ltac:(vm_compute; reflexivity)) ltac:(vm_compute; reflexivity))
    as (oid & pre & d & post & _ & Hcol & Hcol' & _).
  rewrite Hcol'.
  assert (H2 : length two_profiles = 2) by reflexivity.
  rewrite Hcol, length_app in H2; cbn [length] in H2.
  rewrite length_app; lia.
Defined.

Lemma to_oid_accepts_witness :
  Crud.to_oid spaced_id = Crud.Ok (repeat 0%Z 10 ++ [1%Z]) /\ String.length spaced_id = 24.
Proof.
  split; [reflexivity|].
  exact (proj1 (to_oid_accepts spaced_id (repeat 0%Z 10 ++ [1%Z]) eq_refl)).
Defined.

Lemma update_item_response_witness :
  exists col' d',
    Crud.update_item paths_rejected two_profiles oid1_text [("name", Crud.VStr "Lee Willemse")]
      1718454123456789%Z
    = (col', Crud.Ok (Some d'))
    /\ Crud.lookup "updated_at" (Serialize.as_serializable d')
       = Some (Crud.VStr "2024-06-15T12:22:03.456000").
Proof.
  destruct (update_item_response paths_rejected two_profiles oid1_text oid1
              [("name", Crud.VStr "Lee Willemse")] 1718454123456789%Z (hd [] two_profiles)
              eq_refl eq_refl ltac:(nodup_keys) ltac:(nodup_keys) eq_refl eq_refl)
    as (col' & d' & Hu & _ & _ & Hup & _).
  exists col', d'; split; [exact Hu|]; rewrite Hup; vm_compute; reflexivity.
Defined.
